(** * Threshold risk evaluator of the predictive-maintenance scripts

    A shallow embedding of [PredictiveMaintenance] from [src/1.py]:
    [assess_parameter_status], [calculate_failure_likelihood],
    [generate_recommendations] and [_get_last_maintenance_time], with the
    threshold table of [__init__], and [generate_parameters] with the
    labelling loop of [_train_new_model], the random draws being inputs.

    Numbers.  Python readings are [int] or finite [float] values; both are
    rationals, and Python compares an [int] with a [float] exactly, so a
    reading is a [Q] and every comparison is the exact one.  A float literal
    of the table stands for the binary64 number it denotes ([0.7] is not
    [7/10]).  The products [risk_factor * weight] of the configured table
    are multiples of one half below [2^53], so the sums the code forms in
    binary64 are the exact sums formed here.  The difference taken by
    [generate_recommendations] has no such guarantee: it is a parameter,
    with the Unicode casing and the rendering of numbers ([builtins]), and
    stands for a finite result. *)

From Stdlib Require Import QArith Lqa Ascii String Sorting.Sorted.
From stdpp Require Import gmap strings list fin_maps.

Local Open Scope string_scope.

(** ** The fragment of the Python runtime the class relies on *)

Module Py.

(** Exceptions the evaluator can raise. *)
Inductive exn : Type :=
| KeyError (key : string)
| IndexError
| TypeError.

Inductive result (A : Type) : Type :=
| Ok (a : A)
| Raise (e : exn).
Arguments Ok {A} a.
Arguments Raise {A} e.

#[global] Instance result_ret : MRet result := fun _ a => Ok a.
#[global] Instance result_bind : MBind result := fun _ _ k m =>
  match m with
  | Ok a => k a
  | Raise e => Raise e
  end.

(** A reading of a parameter set: a number, or a string (the timestamp). *)
Inductive pyval : Type :=
| VNum (q : Q)
| VStr (s : string).

(** An entry of a threshold record: a number, a tuple or a list. *)
Inductive pyobj : Type :=
| PNum (q : Q)
| PTuple (t : list Q)
| PList (l : list Q).

Definition Qlt_bool (x y : Q) : bool := negb (Qle_bool y x).

(** [isinstance(o, tuple)] *)
Definition is_tuple (o : pyobj) : bool :=
  match o with PTuple _ => true | _ => false end.

(** [o[i]] *)
Definition getitem (o : pyobj) (i : nat) : result Q :=
  match o with
  | PNum _ => Raise TypeError
  | PTuple t | PList t =>
      match t !! i with
      | Some x => Ok x
      | None => Raise IndexError
      end
  end.

(** [v < x] and [v > x] for a number [x]; a string does not compare
    with a number. *)
Definition lt (v : pyval) (x : Q) : result bool :=
  match v with
  | VNum a => Ok (Qlt_bool a x)
  | VStr _ => Raise TypeError
  end.

Definition gt (v : pyval) (x : Q) : result bool :=
  match v with
  | VNum a => Ok (Qlt_bool x a)
  | VStr _ => Raise TypeError
  end.

(** [v > o] for an entry that is not known to be a number. *)
Definition gt_obj (v : pyval) (o : pyobj) : result bool :=
  match o with
  | PNum x => gt v x
  | PTuple _ | PList _ => Raise TypeError
  end.

(** [a - b].  The difference of two numbers is left to [minus]: Python
    subtracts two ints exactly and rounds to binary64 as soon as one
    operand is a float, and a reading does not record which of the two it
    is. *)
Definition sub (minus : Q → Q → Q) (a b : pyval) : result Q :=
  match a, b with
  | VNum x, VNum y => Ok (minus x y)
  | _, _ => Raise TypeError
  end.

(** [d[k]] on a dictionary *)
Definition dict_get {V : Type} (d : gmap string V) (k : string) : result V :=
  match d !! k with
  | Some v => Ok v
  | None => Raise (KeyError k)
  end.

(** A dictionary whose iteration order matters is the list of its items
    in that order; [d[k]] on it. *)
Fixpoint items_get {V : Type} (items : list (string * V)) (k : string) : result V :=
  match items with
  | [] => Raise (KeyError k)
  | (k', v) :: rest => if decide (k' = k) then Ok v else items_get rest k
  end.

(** [s.capitalize()] as it acts on ASCII text; on other text the casing
    of Python follows Unicode.  Used only as a sample of the operation. *)
Definition upper (c : ascii) : ascii :=
  let n := nat_of_ascii c in
  if (97 <=? n)%nat && (n <=? 122)%nat then ascii_of_nat (n - 32) else c.

Definition lower (c : ascii) : ascii :=
  let n := nat_of_ascii c in
  if (65 <=? n)%nat && (n <=? 90)%nat then ascii_of_nat (n + 32) else c.

Fixpoint map_string (f : ascii → ascii) (s : string) : string :=
  match s with
  | EmptyString => EmptyString
  | String c s' => String (f c) (map_string f s')
  end.

Definition ascii_capitalize (s : string) : string :=
  match s with
  | EmptyString => EmptyString
  | String c s' => String (upper c) (map_string lower s')
  end.

(** The line feed of ["\n".join(...)]. *)
Definition newline : string := String (ascii_of_nat 10) EmptyString.

(** [min(a, b)]: the first of the smallest arguments. *)
Definition min (a b : Q) : Q := if Qlt_bool b a then b else a.

(** [sorted(l, key=key, reverse=True)].  The builtin is specified as a
    stable sort, and [reverse=True] keeps elements of equal key in their
    original order; it is modelled by the stable insertion sort. *)
Section Sorted.
Context {A : Type} (key : A → Q).

Fixpoint insert_desc (x : A) (l : list A) : list A :=
  match l with
  | [] => [x]
  | y :: l' =>
      if Qlt_bool (key x) (key y) then y :: insert_desc x l'
      else x :: y :: l'
  end.

Fixpoint sorted_desc (l : list A) : list A :=
  match l with
  | [] => []
  | x :: l' => insert_desc x (sorted_desc l')
  end.
End Sorted.

End Py.

Import Py.

(** ** The class *)

Inductive Status : Type := NORMAL | WARNING | CRITICAL.

#[global] Instance Status_eq_dec : EqDecision Status.
Proof. solve_decision. Defined.

(** One record of [self.thresholds]. *)
Record sensor : Type := Sensor {
  normal : pyobj;
  warning : pyobj;
  critical : pyobj;
  weight : Q
}.

(** The part of [self] the evaluator reads. *)
Record PredictiveMaintenance : Type := {
  thresholds : gmap string sensor;
  maintenance_history : list (gmap string pyval)
}.

(** One element of the issues list. *)
Record issue : Type := Issue {
  parameter : string;
  value : pyval;
  status : Status;
  risk_contribution : Q
}.

(** The exact values of the binary64 literals of the table that are not
    integers or half-integers. *)
Definition f0_1 : Q := 3602879701896397 # 36028797018963968.
Definition f0_7 : Q := 3152519739159347 # 4503599627370496.
Definition f0_9 : Q := 8106479329266893 # 9007199254740992.

(** The table [__init__] installs. *)
Definition configured_thresholds : gmap string sensor :=
  list_to_map [
    ("temperature", Sensor (PTuple [20; 60]) (PTuple [60; 80]) (PNum 80) 25);
    ("vibration", Sensor (PTuple [f0_1; 2]) (PTuple [2; 3]) (PNum 3) 20);
    ("pressure", Sensor (PTuple [2; 8]) (PTuple [3 # 2; 17 # 2]) (PTuple [1; 9]) 15);
    ("humidity", Sensor (PTuple [30; 60]) (PTuple [60; 70]) (PNum 70) 10);
    ("runtime", Sensor (PTuple [0; 5000]) (PTuple [5000; 8000]) (PNum 8000) 20);
    ("load", Sensor (PTuple [0; f0_7]) (PTuple [f0_7; f0_9]) (PNum f0_9) 10);
    ("speed", Sensor (PTuple [500; 2000]) (PTuple [2000; 2500]) (PNum 2500) 10)
  ]%Q.

Definition init (history : list (gmap string pyval)) : PredictiveMaintenance :=
  {| thresholds := configured_thresholds; maintenance_history := history |}.

(** [value < t[0] or value > t[1]], evaluated left to right. *)
Definition outside (value : pyval) (t : pyobj) : result bool :=
  lo ← getitem t 0;
  below ← lt value lo;
  if below : bool then Ok true
  else hi ← getitem t 1; gt value hi.

(** The first [if]/[elif] of [assess_parameter_status]: does it return
    CRITICAL? *)
Definition critical_test (threshold : sensor) (value : pyval) : result bool :=
  if is_tuple (critical threshold) then outside value (critical threshold)
  else gt_obj value (critical threshold).

(** The second [if]/[elif]: does it return WARNING? *)
Definition warning_test (threshold : sensor) (value : pyval) : result bool :=
  if is_tuple (warning threshold) then outside value (warning threshold)
  else hi ← getitem (warning threshold) 1; gt value hi.

Definition assess_parameter_status (self : PredictiveMaintenance)
    (param_name : string) (value : pyval) : result (Status * Q) :=
  threshold ← dict_get (thresholds self) param_name;
  crit ← critical_test threshold value;
  if crit : bool then Ok (CRITICAL, 1%Q)
  else
    warn ← warning_test threshold value;
    if warn : bool then Ok (WARNING, (1 # 2)%Q)
    else Ok (NORMAL, 0%Q).

(** The [for] loop of [calculate_failure_likelihood], threading the two
    locals it updates. *)
Fixpoint likelihood_loop (self : PredictiveMaintenance)
    (items : list (string * pyval)) (likelihood : Q) (issues : list issue)
    : result (Q * list issue) :=
  match items with
  | [] => Ok (likelihood, issues)
  | (param_name, value) :: rest =>
      if decide (param_name ≠ "timestamp") then
        '(status, risk_factor) ← assess_parameter_status self param_name value;
        threshold ← dict_get (thresholds self) param_name;
        let weight := weight threshold in
        let likelihood := (likelihood + risk_factor * weight)%Q in
        let issues :=
          if decide (status ≠ NORMAL)
          then (issues ++ [Issue param_name value status (risk_factor * weight)%Q])%list
          else issues in
        likelihood_loop self rest likelihood issues
      else likelihood_loop self rest likelihood issues
  end.

Definition calculate_failure_likelihood (self : PredictiveMaintenance)
    (params : list (string * pyval)) : result (Q * list issue) :=
  '(likelihood, issues) ← likelihood_loop self params 0%Q [];
  Ok (Py.min likelihood 100%Q, sorted_desc risk_contribution issues).

Definition _get_last_maintenance_time (self : PredictiveMaintenance) : pyval :=
  match last (maintenance_history self) with
  | None => VNum 0
  | Some entry => default (VNum 0) (entry !! "runtime")
  end.

(** What [generate_recommendations] takes from the Python runtime and this
    development leaves open: [minus], the difference [a - b] of two numbers
    as Python forms it (exact on two ints, rounded to binary64 otherwise);
    [capitalize], [str.capitalize()] with its Unicode casing; [str_of_num],
    the text an f-string gives a number. *)
Record builtins : Type := Builtins {
  minus : Q → Q → Q;
  capitalize : string → string;
  str_of_num : Q → string
}.

Section Recommendations.

Variable py : builtins.

Definition format (v : pyval) : string :=
  match v with
  | VNum q => str_of_num py q
  | VStr s => s
  end.

Definition overdue_message (maintenance_due : Q) : string :=
  "⚠️ OVERDUE: Regular maintenance schedule exceeded by "
    +:+ str_of_num py (minus py maintenance_due 5000) +:+ " hours".

Definition urgent_message (i : issue) : string :=
  "🔴 URGENT: " +:+ capitalize py (parameter i) +:+ " is critically high ("
    +:+ format (value i) +:+ "). Immediate inspection required.".

Definition inspection_message (i : issue) : string :=
  "🟡 WARNING: " +:+ capitalize py (parameter i) +:+ " is above normal ("
    +:+ format (value i) +:+ "). Schedule inspection within 48 hours.".

(** The body of the [for] loop: the line appended for one issue. *)
Definition issue_message (i : issue) : string :=
  if decide (status i = CRITICAL) then urgent_message i
  else inspection_message i.

Definition all_normal_message : string :=
  "All parameters are within normal operating ranges. Continue regular monitoring.".

Definition generate_recommendations (self : PredictiveMaintenance)
    (params : list (string * pyval)) (issues : list issue) : result string :=
  match issues with
  | [] => Ok all_normal_message
  | _ :: _ =>
      total_runtime ← items_get params "runtime";
      maintenance_due ← sub (minus py) total_runtime (_get_last_maintenance_time self);
      let recommendations :=
        ((if Qlt_bool 5000 maintenance_due then [overdue_message maintenance_due] else [])
         ++ map issue_message issues)%list in
      Ok (String.concat newline recommendations)
  end.

End Recommendations.

(** ** The sample generator and the labels of the training data *)

(** [d[k] = v] on a dictionary kept as its items: a key that is present
    keeps its place, a new key goes last. *)
Fixpoint items_set {V : Type} (items : list (string * V)) (k : string) (v : V)
    : list (string * V) :=
  match items with
  | [] => [(k, v)]
  | (k', v') :: rest =>
      if decide (k' = k) then (k, v) :: rest
      else (k', v') :: items_set rest k v
  end.

(** What the clock and the seven random calls of one [generate_parameters]
    call returned, the uniform draws after [round(..., 2)]. *)
Record draws : Type := Draws {
  now : string;
  temperature_draw : Q;
  vibration_draw : Q;
  pressure_draw : Q;
  humidity_draw : Q;
  runtime_draw : Q;
  load_draw : Q;
  speed_draw : Q
}.

Definition generate_parameters (d : draws) : list (string * pyval) :=
  [("timestamp", VStr (now d));
   ("temperature", VNum (temperature_draw d));
   ("vibration", VNum (vibration_draw d));
   ("pressure", VNum (pressure_draw d));
   ("humidity", VNum (humidity_draw d));
   ("runtime", VNum (runtime_draw d));
   ("load", VNum (load_draw d));
   ("speed", VNum (speed_draw d))].

(** [1 if likelihood > 50 else 0] *)
Definition failure_status (likelihood : Q) : Q :=
  if Qlt_bool 50 likelihood then 1%Q else 0%Q.

(** The [for] loop of [_train_new_model], one round per sample, threading
    the list it appends to. *)
Fixpoint training_data_loop (self : PredictiveMaintenance) (samples : list draws)
    (training_data : list (list (string * pyval)))
    : result (list (list (string * pyval))) :=
  match samples with
  | [] => Ok training_data
  | d :: rest =>
      let params := generate_parameters d in
      '(likelihood, issues) ← calculate_failure_likelihood self params;
      let params := items_set params "failure" (VNum (failure_status likelihood)) in
      training_data_loop self rest (training_data ++ [params])%list
  end.

(** ** Vocabulary of the statements *)

(** The status fixes the risk factor: CRITICAL 1.0, WARNING 0.5, NORMAL 0.0. *)
Definition risk_factor_of (s : Status) : Q :=
  match s with NORMAL => 0 | WARNING => 1 # 2 | CRITICAL => 1 end.

(** A table whose only sensor has a list for its warning entry. *)
Definition list_warning_table : PredictiveMaintenance :=
  {| thresholds := {[ "flow" := Sensor (PTuple [0; 10]) (PList [10; 20]) (PNum 30) 5 ]}%Q;
     maintenance_history := [] |}.

Definition same_bands (a b : sensor) : Prop :=
  warning a = warning b ∧ critical a = critical b ∧ weight a = weight b.

Definition normal_blind (self1 self2 : PredictiveMaintenance) : Prop :=
  ∀ k, option_Forall2 same_bands (thresholds self1 !! k) (thresholds self2 !! k).

(** The configured table with every normal entry overwritten. *)
Definition normal_erased : PredictiveMaintenance :=
  {| thresholds :=
       (λ s, Sensor (PNum 0) (warning s) (critical s) (weight s))
         <$> configured_thresholds;
     maintenance_history := [] |}.

#[global] Instance Qeq_decision (x y : Q) : Decision (x == y)%Q := Qeq_dec x y.

(** [a] may stand before [b] in a list that descends by [key]. *)
Definition desc {A : Type} (key : A → Q) (a b : A) : Prop := (key b <= key a)%Q.

(** The sum of the contributions of an issues list. *)
Definition total_contribution (issues : list issue) : Q :=
  foldr (λ i acc, risk_contribution i + acc)%Q 0%Q issues.

(** The pair an issue records about the reading it was made from. *)
Definition reading (i : issue) : string * pyval := (parameter i, value i).

(** An issue made by the loop: not NORMAL, and carrying the risk factor of
    its status times the weight of its sensor. *)
Definition flagged (self : PredictiveMaintenance) (i : issue) : Prop :=
  status i ≠ NORMAL
  ∧ ∃ threshold,
      thresholds self !! parameter i = Some threshold
      ∧ risk_contribution i = (risk_factor_of (status i) * weight threshold)%Q.

(** A sensor record on which neither test can raise for a number. *)
Definition never_raises (threshold : sensor) : Prop :=
  ∀ v : Q,
    (∃ b, critical_test threshold (VNum v) = Ok b)
    ∧ (∃ b, warning_test threshold (VNum v) = Ok b).

(** Every key but the timestamp is a sensor of the table and carries a
    number. *)
Definition configured_keys (self : PredictiveMaintenance)
    (params : list (string * pyval)) : Prop :=
  ∀ k v, (k, v) ∈ params → k ≠ "timestamp" →
    is_Some (thresholds self !! k) ∧ ∃ q, v = VNum q.

(** One observation of the generator: every sensor and a timestamp. *)
Definition sample_params : list (string * pyval) :=
  [("timestamp", VStr "2024-01-01T00:00:00");
   ("temperature", VNum 85);
   ("vibration", VNum (7 # 2));
   ("pressure", VNum 5);
   ("humidity", VNum 75);
   ("runtime", VNum 9000);
   ("load", VNum (1 # 2));
   ("speed", VNum 2600)]%Q.

(** The reading of the claim as it is worded: whatever the issues list, an
    overdue parameter set makes the text begin with the overdue message. *)
Definition overdue_always_prepended : Prop :=
  ∀ (py : builtins) (self : PredictiveMaintenance)
    (params : list (string * pyval)) (issues : list issue)
    (runtime : pyval) (due : Q),
    items_get params "runtime" = Ok runtime →
    sub (minus py) runtime (_get_last_maintenance_time self) = Ok due →
    (5000 < due)%Q →
    ∃ text,
      generate_recommendations py self params issues = Ok text
      ∧ String.prefix (overdue_message py due) text = true.

(** A runtime to run the recommendations with: the exact difference, which
    is Python's on two ints, ASCII casing, and one text for every number. *)
Definition sample_builtins : builtins :=
  Builtins Qminus ascii_capitalize (λ _, "1000").

(** The issue the loop makes of one item, if it makes one. *)
Definition flag (self : PredictiveMaintenance) (item : string * pyval)
    : option issue :=
  if decide (item.1 ≠ "timestamp") then
    match assess_parameter_status self item.1 item.2, thresholds self !! item.1 with
    | Ok (s, rf), Some threshold =>
        if decide (s ≠ NORMAL)
        then Some (Issue item.1 item.2 s (rf * weight threshold)%Q)
        else None
    | _, _ => None
    end
  else None.

(** Two reports that agree up to the order of issues of equal rank. *)
Definition same_report (r1 r2 : Q * list issue) : Prop :=
  (r1.1 == r2.1)%Q ∧ r1.2 ≡ₚ r2.2.

(** Two runs of the loop that both raise, or both return and agree up to
    the order of the issues. *)
Definition same_outcome (r1 r2 : result (Q * list issue)) : Prop :=
  match r1, r2 with
  | Ok a, Ok b => same_report a b
  | Raise _, Raise _ => True
  | _, _ => False
  end.

(** One observation of the generator. *)
Definition sample_draws : draws :=
  Draws "2024-01-01T00:00:00" 85 (7 # 2) 5 75 9000 (1 # 2) 2600.

(** ** Facts about the runtime fragment *)

Lemma Qlt_bool_iff (x y : Q) : Qlt_bool x y = true ↔ (x < y)%Q.
Proof.
  unfold Qlt_bool. rewrite negb_true_iff, <- not_true_iff_false, Qle_bool_iff.
  split; [apply Qnot_le_lt | apply Qlt_not_le].
Qed.

Lemma Qlt_bool_false (x y : Q) : Qlt_bool x y = false ↔ (y <= x)%Q.
Proof.
  unfold Qlt_bool. rewrite negb_false_iff. apply Qle_bool_iff.
Qed.

Lemma bind_Ok {A B : Type} (k : A → result B) (a : A) : (Ok a ≫= k) = k a.
Proof. reflexivity. Qed.

Lemma bind_inv_Ok {A B : Type} (k : A → result B) (m : result A) (b : B) :
  (m ≫= k) = Ok b → ∃ a, m = Ok a ∧ k a = Ok b.
Proof. destruct m as [a|e]; [eauto | discriminate]. Qed.

Lemma dict_get_Some {V : Type} (d : gmap string V) (k : string) (v : V) :
  d !! k = Some v → dict_get d k = Ok v.
Proof. unfold dict_get. intros ->. reflexivity. Qed.

Lemma dict_get_None {V : Type} (d : gmap string V) (k : string) :
  d !! k = None → dict_get d k = Raise (KeyError k).
Proof. unfold dict_get. intros ->. reflexivity. Qed.

(** ** [assess_parameter_status] *)

(** On a number and a pair, the exterior test is a plain disjunction. *)
Lemma outside_pair (v lo hi : Q) :
  outside (VNum v) (PTuple [lo; hi]) = Ok (Qlt_bool v lo || Qlt_bool hi v).
Proof. unfold outside. cbn. destruct (Qlt_bool v lo); reflexivity. Qed.

(** The three results, in the order the code tries them. *)
Lemma assess_unfold (self : PredictiveMaintenance) (name : string)
    (threshold : sensor) (value : pyval) :
  thresholds self !! name = Some threshold →
  assess_parameter_status self name value =
    (crit ← critical_test threshold value;
     if crit : bool then Ok (CRITICAL, 1%Q)
     else warn ← warning_test threshold value;
          if warn : bool then Ok (WARNING, (1 # 2)%Q) else Ok (NORMAL, 0%Q)).
Proof.
  intros Hlook. unfold assess_parameter_status.
  rewrite (dict_get_Some _ _ _ Hlook). reflexivity.
Qed.

Lemma assess_critical_iff (self : PredictiveMaintenance) (name : string)
    (threshold : sensor) (value : pyval) :
  thresholds self !! name = Some threshold →
  assess_parameter_status self name value = Ok (CRITICAL, 1%Q)
  ↔ critical_test threshold value = Ok true.
Proof.
  intros Hlook. rewrite (assess_unfold _ _ _ _ Hlook).
  destruct (critical_test threshold value) as [[|]|e]; cbn.
  - tauto.
  - split; [|discriminate].
    destruct (warning_test threshold value) as [[|]|e]; discriminate.
  - split; discriminate.
Qed.

Lemma assess_risk_factor (self : PredictiveMaintenance) (name : string)
    (value : pyval) (s : Status) (rf : Q) :
  assess_parameter_status self name value = Ok (s, rf) → rf = risk_factor_of s.
Proof.
  unfold assess_parameter_status. intros H.
  apply bind_inv_Ok in H as (threshold & _ & H).
  apply bind_inv_Ok in H as ([|] & _ & H); [by inversion H|].
  apply bind_inv_Ok in H as ([|] & _ & H); by inversion H.
Qed.

(** Temperature readings strictly inside the configured normal range
    (20, 60) lie below the warning tuple (60, 80), and the exterior test on
    that tuple reports them. *)
Lemma temperature_inside_normal (history : list (gmap string pyval)) (v : Q) :
  (20 < v)%Q → (v < 60)%Q →
  assess_parameter_status (init history) "temperature" (VNum v)
  = Ok (WARNING, (1 # 2)%Q).
Proof.
  intros Hlo Hhi.
  rewrite (assess_unfold _ _ (Sensor (PTuple [20; 60]) (PTuple [60; 80]) (PNum 80) 25)%Q)
    by reflexivity.
  unfold critical_test, warning_test. cbn [critical warning is_tuple gt_obj gt].
  rewrite outside_pair.
  assert (Qlt_bool 80 v = false) as ->.
  { apply Qlt_bool_false. apply Qlt_le_weak. eapply Qlt_trans; [exact Hhi | reflexivity]. }
  assert (Qlt_bool v 60 = true) as -> by (by apply Qlt_bool_iff).
  reflexivity.
Qed.

(** C1 (the code departs from the claim): a temperature of 30, strictly
    inside the configured normal range (20, 60), is assessed WARNING with
    risk factor 0.5 and not NORMAL with 0.0. *)
Theorem C1_temperature_30_is_warning :
  assess_parameter_status (init []) "temperature" (VNum 30)
  = Ok (WARNING, (1 # 2)%Q).
Proof. apply temperature_inside_normal; reflexivity. Qed.

(** C3: for a spec whose critical bound is the interval (lo, hi), the
    assessment of a number is CRITICAL with risk factor 1.0 exactly when the
    number is below lo or above hi; with the bound (1.0, 9.0), 0.5 and 9.5
    are CRITICAL and 5.0 is not, and the configured pressure spec calls 5.0
    NORMAL. *)
Theorem C3_critical_interval (self : PredictiveMaintenance) (name : string)
    (threshold : sensor) (lo hi : Q) :
  thresholds self !! name = Some threshold →
  critical threshold = PTuple [lo; hi] →
  (∀ v : Q,
     assess_parameter_status self name (VNum v) = Ok (CRITICAL, 1%Q)
     ↔ (v < lo)%Q ∨ (hi < v)%Q)
  ∧ (lo = 1%Q → hi = 9%Q →
     assess_parameter_status self name (VNum (1 # 2)) = Ok (CRITICAL, 1%Q)
     ∧ assess_parameter_status self name (VNum (19 # 2)) = Ok (CRITICAL, 1%Q)
     ∧ (∀ r, assess_parameter_status self name (VNum 5) = Ok r → r.1 ≠ CRITICAL))
  ∧ (∀ history,
       assess_parameter_status (init history) "pressure" (VNum 5) = Ok (NORMAL, 0%Q)).
Proof.
  intros Hlook Hcrit.
  assert (Hiff : ∀ v : Q,
    assess_parameter_status self name (VNum v) = Ok (CRITICAL, 1%Q)
    ↔ (v < lo)%Q ∨ (hi < v)%Q).
  { intros v. rewrite (assess_critical_iff _ _ _ _ Hlook).
    unfold critical_test. rewrite Hcrit. cbn [is_tuple]. rewrite outside_pair.
    rewrite <- !Qlt_bool_iff, <- orb_true_iff.
    split; [by intros [= ->] | by intros ->]. }
  split; [exact Hiff|]. split; [|by intros history].
  intros -> ->. split; [|split].
  - apply Hiff. by left.
  - apply Hiff. by right.
  - intros [s rf] Hr Hs. cbn in Hs. subst s.
    rewrite (assess_risk_factor _ _ _ _ _ Hr) in Hr. cbn in Hr.
    apply Hiff in Hr as [Hr|Hr]; discriminate.
Qed.

Lemma C3_critical_interval_witness :
  thresholds (init []) !! "pressure"
    = Some (Sensor (PTuple [2; 8]) (PTuple [3 # 2; 17 # 2]) (PTuple [1; 9]) 15)%Q
  ∧ assess_parameter_status (init []) "pressure" (VNum (1 # 2)) = Ok (CRITICAL, 1%Q).
Proof.
  split; [reflexivity|].
  apply (C3_critical_interval (init []) "pressure"
           (Sensor (PTuple [2; 8]) (PTuple [3 # 2; 17 # 2]) (PTuple [1; 9]) 15)%Q
           1%Q 9%Q); reflexivity.
Defined.

(** C4: for a spec whose critical bound is a scalar c, every number above c
    is assessed CRITICAL with risk factor 1.0, whatever the warning entry. *)
Theorem C4_critical_scalar (self : PredictiveMaintenance) (name : string)
    (threshold : sensor) (c v : Q) :
  thresholds self !! name = Some threshold →
  critical threshold = PNum c →
  (c < v)%Q →
  assess_parameter_status self name (VNum v) = Ok (CRITICAL, 1%Q).
Proof.
  intros Hlook Hcrit Hgt.
  apply (assess_critical_iff _ _ _ _ Hlook).
  unfold critical_test. rewrite Hcrit. cbn.
  f_equal. by apply Qlt_bool_iff.
Qed.

Lemma C4_critical_scalar_witness :
  assess_parameter_status (init []) "temperature" (VNum 85) = Ok (CRITICAL, 1%Q).
Proof.
  apply (C4_critical_scalar (init []) "temperature"
           (Sensor (PTuple [20; 60]) (PTuple [60; 80]) (PNum 80) 25)%Q 80%Q 85%Q);
    reflexivity.
Defined.

(** C7: when the critical test does not fire and the warning entry is not a
    tuple, the assessment of a number is WARNING with risk factor 0.5
    exactly when the entry has a member at index 1 and the number exceeds
    it; the member at index 0 is never compared. *)
Theorem C7_warning_upper_only (self : PredictiveMaintenance) (name : string)
    (threshold : sensor) (v : Q) :
  thresholds self !! name = Some threshold →
  critical_test threshold (VNum v) = Ok false →
  is_tuple (warning threshold) = false →
  (assess_parameter_status self name (VNum v) = Ok (WARNING, (1 # 2)%Q)
   ↔ ∃ hi, getitem (warning threshold) 1 = Ok hi ∧ (hi < v)%Q)
  ∧ (∀ lo hi rest, warning threshold = PList (lo :: hi :: rest) →
     assess_parameter_status self name (VNum v)
     = Ok (if Qlt_bool hi v then (WARNING, (1 # 2)%Q) else (NORMAL, 0%Q))).
Proof.
  intros Hlook Hcrit Htuple.
  rewrite (assess_unfold _ _ _ _ Hlook), Hcrit, bind_Ok.
  unfold warning_test. rewrite Htuple. split.
  - destruct (getitem (warning threshold) 1) as [hi|e] eqn:Hhi; cbn.
    + destruct (Qlt_bool hi v) eqn:Hlt; cbn.
      * split; [|done]. intros _. exists hi. split; [done|]. by apply Qlt_bool_iff.
      * split; [discriminate|]. intros (hi' & [= <-] & Hgt).
        apply Qlt_bool_iff in Hgt. congruence.
    + split; [discriminate|]. by intros (hi' & [=] & _).
  - intros lo hi rest ->. cbn. by destruct (Qlt_bool hi v).
Qed.

Lemma C7_warning_upper_only_witness :
  assess_parameter_status list_warning_table "flow" (VNum 5) = Ok (NORMAL, 0%Q)
  ∧ assess_parameter_status list_warning_table "flow" (VNum 25) = Ok (WARNING, (1 # 2)%Q).
Proof.
  split.
  - exact (proj2 (C7_warning_upper_only list_warning_table "flow"
                    (Sensor (PTuple [0; 10]) (PList [10; 20]) (PNum 30) 5)%Q 5%Q
                    eq_refl eq_refl eq_refl) 10%Q 20%Q [] eq_refl).
  - apply (C7_warning_upper_only list_warning_table "flow"
             (Sensor (PTuple [0; 10]) (PList [10; 20]) (PNum 30) 5)%Q 25%Q
             eq_refl eq_refl eq_refl).
    exists 20%Q. split; reflexivity.
Defined.

(** ** Tables that differ in their normal entries only *)

Lemma normal_blind_assess (self1 self2 : PredictiveMaintenance) :
  normal_blind self1 self2 →
  ∀ name value,
    assess_parameter_status self1 name value
    = assess_parameter_status self2 name value.
Proof.
  intros Hsame name value. unfold assess_parameter_status, dict_get.
  destruct (Hsame name) as [a b (Hw & Hc & _)|]; [|reflexivity].
  cbn. unfold critical_test, warning_test. by rewrite Hw, Hc.
Qed.

Lemma normal_blind_loop (self1 self2 : PredictiveMaintenance) :
  normal_blind self1 self2 →
  ∀ items likelihood issues,
    likelihood_loop self1 items likelihood issues
    = likelihood_loop self2 items likelihood issues.
Proof.
  intros Hsame items.
  induction items as [|[name value] rest IH]; intros likelihood issues; [reflexivity|].
  cbn [likelihood_loop]. case_decide; [|apply IH].
  rewrite (normal_blind_assess _ _ Hsame).
  destruct (assess_parameter_status self2 name value) as [[s rf]|e]; [|reflexivity].
  cbn. unfold dict_get.
  destruct (Hsame name) as [a b (_ & _ & Hweight)|]; [|reflexivity].
  cbn. rewrite Hweight. apply IH.
Qed.

(** C10: the normal entries are never read.  Two tables that agree on every
    warning entry, critical entry and weight give the same assessment of
    every reading and the same likelihood report for every parameter set. *)
Theorem C10_normal_never_read (self1 self2 : PredictiveMaintenance) :
  normal_blind self1 self2 →
  (∀ name value,
     assess_parameter_status self1 name value
     = assess_parameter_status self2 name value)
  ∧ (∀ params,
       calculate_failure_likelihood self1 params
       = calculate_failure_likelihood self2 params).
Proof.
  intros Hsame. split; [by apply normal_blind_assess|].
  intros params. unfold calculate_failure_likelihood.
  by rewrite (normal_blind_loop _ _ Hsame).
Qed.

Lemma C10_normal_never_read_witness :
  normal_blind (init []) normal_erased
  ∧ calculate_failure_likelihood (init []) [("temperature", VNum 85)]
    = calculate_failure_likelihood normal_erased [("temperature", VNum 85)].
Proof.
  assert (H : normal_blind (init []) normal_erased).
  { intros k. cbn [thresholds init normal_erased]. rewrite lookup_fmap.
    destruct (configured_thresholds !! k); by constructor. }
  split; [exact H|].
  apply (C10_normal_never_read (init []) normal_erased H).
Defined.

(** ** The loop of [calculate_failure_likelihood] *)

Lemma likelihood_loop_app (self : PredictiveMaintenance)
    (pre post : list (string * pyval)) (likelihood : Q) (issues : list issue) :
  likelihood_loop self (pre ++ post) likelihood issues
  = ('(likelihood', issues') ← likelihood_loop self pre likelihood issues;
     likelihood_loop self post likelihood' issues').
Proof.
  revert likelihood issues.
  induction pre as [|[name value] pre IH]; intros likelihood issues; [reflexivity|].
  cbn [app likelihood_loop]. case_decide; [|apply IH].
  destruct (assess_parameter_status self name value) as [[s rf]|e]; [|reflexivity].
  cbn. destruct (dict_get (thresholds self) name) as [threshold|e]; [|reflexivity].
  cbn. apply IH.
Qed.

(** An entry the table does not know stops the loop with [KeyError]. *)
Lemma likelihood_loop_unknown (self : PredictiveMaintenance) (name : string)
    (value : pyval) (rest : list (string * pyval)) (likelihood : Q)
    (issues : list issue) :
  name ≠ "timestamp" →
  thresholds self !! name = None →
  likelihood_loop self ((name, value) :: rest) likelihood issues
  = Raise (KeyError name).
Proof.
  intros Hname Hnone. cbn [likelihood_loop]. rewrite decide_True by done.
  unfold assess_parameter_status. by rewrite (dict_get_None _ _ Hnone).
Qed.

(** C6: a parameter set with a key other than the timestamp that the table
    does not know makes [calculate_failure_likelihood] raise: no report is
    returned and the entry is not skipped.  When the entries before it are
    evaluated without an error, the exception is the [KeyError] of that
    key. *)
Theorem C6_unknown_sensor_raises (self : PredictiveMaintenance)
    (params : list (string * pyval)) (name : string) (value : pyval) :
  (name, value) ∈ params →
  name ≠ "timestamp" →
  thresholds self !! name = None →
  (∃ e, calculate_failure_likelihood self params = Raise e)
  ∧ (∀ pre post : list (string * pyval),
       params = (pre ++ (name, value) :: post)%list →
       (∃ report, calculate_failure_likelihood self pre = Ok report) →
       calculate_failure_likelihood self params = Raise (KeyError name)).
Proof.
  intros Hin Hname Hnone. split.
  - apply list_elem_of_split in Hin as (pre & post & ->).
    unfold calculate_failure_likelihood. rewrite likelihood_loop_app.
    destruct (likelihood_loop self pre 0%Q []) as [[l iss]|e];
      cbn -[likelihood_loop].
    + rewrite likelihood_loop_unknown by done. by eexists.
    + by eexists.
  - intros pre post -> [report Hpre].
    unfold calculate_failure_likelihood in *. rewrite likelihood_loop_app.
    destruct (likelihood_loop self pre 0%Q []) as [[l iss]|e]; [|discriminate].
    cbn -[likelihood_loop]. by rewrite likelihood_loop_unknown.
Qed.

Lemma C6_unknown_sensor_raises_witness :
  calculate_failure_likelihood (init [])
    [("timestamp", VStr "2024-01-01T00:00:00"); ("temperature", VNum 85);
     ("torque", VNum 3)]
  = Raise (KeyError "torque").
Proof.
  refine (proj2 (C6_unknown_sensor_raises (init []) _ "torque" (VNum 3) _ _ _)
            [("timestamp", VStr "2024-01-01T00:00:00"); ("temperature", VNum 85)]
            [] eq_refl _).
  - set_solver.
  - discriminate.
  - reflexivity.
  - eexists. reflexivity.
Defined.

(** ** [sorted(..., reverse=True)]: ordered, a rearrangement, stable *)

Section SortedFacts.
Context {A : Type} (key : A → Q).

Lemma insert_desc_Forall (P : A → Prop) (x : A) (l : list A) :
  P x → Forall P l → Forall P (insert_desc key x l).
Proof.
  intros Hx Hl. induction Hl as [|y l Hy Hl IH]; cbn.
  - by constructor.
  - destruct (Qlt_bool (key x) (key y)); repeat constructor; done.
Qed.

Lemma insert_desc_sorted (x : A) (l : list A) :
  StronglySorted (desc key) l → StronglySorted (desc key) (insert_desc key x l).
Proof.
  induction 1 as [|y l Hl IH Hy]; cbn.
  - repeat constructor.
  - destruct (Qlt_bool (key x) (key y)) eqn:Hlt.
    + constructor; [exact IH|].
      apply insert_desc_Forall; [|exact Hy].
      apply Qlt_bool_iff in Hlt. by apply Qlt_le_weak.
    + apply Qlt_bool_false in Hlt.
      constructor; [by constructor|].
      constructor; [exact Hlt|].
      eapply Forall_impl; [exact Hy|].
      intros z Hz. unfold desc in *. by eapply Qle_trans.
Qed.

Lemma sorted_desc_sorted (l : list A) : StronglySorted (desc key) (sorted_desc key l).
Proof.
  induction l as [|x l IH]; cbn; [constructor | by apply insert_desc_sorted].
Qed.

Lemma insert_desc_perm (x : A) (l : list A) : insert_desc key x l ≡ₚ x :: l.
Proof.
  induction l as [|y l IH]; cbn; [done|].
  destruct (Qlt_bool (key x) (key y)); [|done].
  rewrite IH. apply Permutation_swap.
Qed.

Lemma sorted_desc_perm (l : list A) : sorted_desc key l ≡ₚ l.
Proof.
  induction l as [|x l IH]; cbn; [done|].
  by rewrite insert_desc_perm, IH.
Qed.

(** Inserting moves the new element past strictly larger keys only, so
    the elements of any one key keep their order. *)
Lemma insert_desc_filter (c : Q) (x : A) (l : list A) :
  filter (λ a, key a == c)%Q (insert_desc key x l)
  = filter (λ a, key a == c)%Q (x :: l).
Proof.
  induction l as [|y l IH]; cbn [insert_desc]; [done|].
  destruct (Qlt_bool (key x) (key y)) eqn:Hlt; [|done].
  apply Qlt_bool_iff in Hlt.
  rewrite (filter_cons _ y), IH, !(filter_cons _ x), (filter_cons _ y).
  destruct (decide (key y == c)%Q) as [Hy|Hy]; [|done].
  assert (Hx : ¬ (key x == c)%Q).
  { intros Hx. rewrite Hx, Hy in Hlt. by apply Qlt_irrefl in Hlt. }
  by rewrite !decide_False by exact Hx.
Qed.

Lemma sorted_desc_stable (c : Q) (l : list A) :
  filter (λ a, key a == c)%Q (sorted_desc key l)
  = filter (λ a, key a == c)%Q l.
Proof.
  induction l as [|x l IH]; cbn [sorted_desc]; [done|].
  by rewrite insert_desc_filter, !(filter_cons _ x), IH.
Qed.

Lemma sorted_desc_nil (l : list A) : sorted_desc key l = [] → l = [].
Proof.
  intros H. apply Permutation_nil_r. rewrite <- H. symmetry. apply sorted_desc_perm.
Qed.

End SortedFacts.

Lemma total_contribution_perm (l1 l2 : list issue) :
  l1 ≡ₚ l2 → (total_contribution l1 == total_contribution l2)%Q.
Proof.
  unfold total_contribution.
  induction 1 as [|x l1 l2 _ IH|x y l|l1 l2 l3 _ IH1 _ IH2]; cbn [foldr].
  - reflexivity.
  - by rewrite IH.
  - ring.
  - by rewrite IH1.
Qed.

Lemma total_contribution_nonneg (l : list issue) :
  Forall (λ i, 0 <= risk_contribution i)%Q l → (0 <= total_contribution l)%Q.
Proof.
  unfold total_contribution.
  induction 1 as [|x l Hx _ IH]; cbn [foldr]; [apply Qle_refl|].
  apply (Qplus_le_compat 0 _ 0); done.
Qed.

Lemma total_contribution_pos (x : issue) (l : list issue) :
  Forall (λ i, 0 < risk_contribution i)%Q (x :: l) →
  (0 < total_contribution (x :: l))%Q.
Proof.
  intros H. apply Forall_cons in H as [Hx Hl].
  change (0 + 0 < risk_contribution x + total_contribution l)%Q.
  apply Qplus_lt_le_compat; [exact Hx|].
  apply total_contribution_nonneg.
  eapply Forall_impl; [exact Hl|]. intros i. apply Qlt_le_weak.
Qed.

(** ** What the loop leaves in its two locals *)

Lemma likelihood_loop_inv (self : PredictiveMaintenance)
    (items : list (string * pyval)) (likelihood likelihood' : Q)
    (issues issues' : list issue) :
  likelihood_loop self items likelihood issues = Ok (likelihood', issues') →
  ∃ new,
    issues' = (issues ++ new)%list
    ∧ (likelihood' == likelihood + total_contribution new)%Q
    ∧ sublist (reading <$> new) items
    ∧ Forall (flagged self) new.
Proof.
  revert likelihood issues.
  induction items as [|[name v] rest IH]; intros likelihood issues Hloop.
  - injection Hloop as <- <-. exists []. rewrite app_nil_r.
    split; [done|]. split; [cbn; ring|]. split; constructor.
  - cbn [likelihood_loop] in Hloop. case_decide as Hname.
    + apply bind_inv_Ok in Hloop as ([s rf] & Hassess & Hloop).
      apply bind_inv_Ok in Hloop as (threshold & Hget & Hloop).
      cbn zeta in Hloop.
      assert (Hlook : thresholds self !! name = Some threshold).
      { unfold dict_get in Hget. destruct (thresholds self !! name); by inversion Hget. }
      pose proof (assess_risk_factor _ _ _ _ _ Hassess) as ->.
      apply IH in Hloop as (new & -> & Hsum & Hsub & Hall).
      case_decide as Hstatus.
      * exists (Issue name v s (risk_factor_of s * weight threshold)%Q :: new).
        split; [by rewrite <- app_assoc|].
        split; [rewrite Hsum; unfold total_contribution; cbn [foldr risk_contribution]; ring|].
        split; [by apply sublist_skip|].
        constructor; [|done]. split; [done|]. by exists threshold.
      * exists new. split; [done|].
        subst s.
        split; [rewrite Hsum; cbn [risk_factor_of]; ring|].
        split; [by apply sublist_cons | done].
    + apply IH in Hloop as (new & -> & Hsum & Hsub & Hall).
      exists new. repeat split; try done. by apply sublist_cons.
Qed.

Lemma likelihood_loop_total (self : PredictiveMaintenance)
    (items : list (string * pyval)) :
  (∀ k threshold, thresholds self !! k = Some threshold → never_raises threshold) →
  configured_keys self items →
  ∀ likelihood issues,
    ∃ likelihood' issues',
      likelihood_loop self items likelihood issues = Ok (likelihood', issues').
Proof.
  intros Htable.
  induction items as [|[name v] rest IH]; intros Hkeys likelihood issues.
  - by eexists _, _.
  - assert (Hrest : configured_keys self rest).
    { intros k w Hin. apply Hkeys. by right. }
    cbn [likelihood_loop]. case_decide as Hname; [|by apply IH].
    destruct (Hkeys name v) as [[threshold Hlook] [q ->]]; [by left | done |].
    rewrite (assess_unfold _ _ _ _ Hlook), (dict_get_Some _ _ _ Hlook).
    destruct (Htable _ _ Hlook q) as [[crit ->] [warn ->]].
    destruct crit; [cbn -[likelihood_loop]; by apply IH|].
    destruct warn; cbn -[likelihood_loop]; by apply IH.
Qed.

Lemma never_raises_shapes (threshold : sensor) :
  (∃ c, critical threshold = PNum c) ∨ (∃ lo hi, critical threshold = PTuple [lo; hi]) →
  (∃ lo hi, warning threshold = PTuple [lo; hi]) →
  never_raises threshold.
Proof.
  intros Hcrit (wlo & whi & Hwarn) v. unfold critical_test, warning_test.
  rewrite Hwarn. cbn [is_tuple]. rewrite outside_pair. split; [|by eexists].
  destruct Hcrit as [[c ->]|(lo & hi & ->)]; cbn [is_tuple gt_obj gt].
  - by eexists.
  - rewrite outside_pair. by eexists.
Qed.

(** The records of the configured table never raise on a number, and their
    weights are positive. *)
Lemma configured_sensor (k : string) (threshold : sensor) :
  configured_thresholds !! k = Some threshold →
  never_raises threshold ∧ (0 < weight threshold)%Q.
Proof.
  intros H. apply elem_of_list_to_map_2 in H.
  repeat (apply elem_of_cons in H as [[= -> ->]|H];
          [split; [apply never_raises_shapes; cbn; eauto | reflexivity]|]).
  by apply elem_of_nil in H.
Qed.

Lemma risk_factor_pos (s : Status) : s ≠ NORMAL → (0 < risk_factor_of s)%Q.
Proof. by destruct s. Qed.

Lemma min_100_proper (a b : Q) : (a == b)%Q → (Py.min a 100 == Py.min b 100)%Q.
Proof.
  intros Hab. unfold Py.min, Qlt_bool. by rewrite Hab; destruct (Qle_bool b 100).
Qed.

(** What a report of the configured table is made of. *)
Lemma report_configured (history : list (gmap string pyval))
    (params : list (string * pyval)) :
  configured_keys (init history) params →
  ∃ likelihood raw,
    calculate_failure_likelihood (init history) params
    = Ok (Py.min likelihood 100, sorted_desc risk_contribution raw)
    ∧ (likelihood == total_contribution raw)%Q
    ∧ sublist (reading <$> raw) params
    ∧ Forall (λ i, 0 < risk_contribution i)%Q raw.
Proof.
  intros Hkeys.
  destruct (likelihood_loop_total (init history) params) with (likelihood := 0%Q)
    (issues := @nil issue) as (likelihood & raw & Hloop); [|done|].
  { intros k threshold Hlook. by apply (configured_sensor k). }
  exists likelihood, raw. unfold calculate_failure_likelihood. rewrite Hloop.
  split; [done|].
  apply likelihood_loop_inv in Hloop as (new & -> & Hsum & Hsub & Hall).
  cbn [app]. split; [rewrite Hsum; ring|]. split; [done|].
  eapply Forall_impl; [exact Hall|].
  intros i (Hstatus & threshold & Hlook & ->).
  apply Qmult_lt_0_compat; [by apply risk_factor_pos|].
  by apply (configured_sensor (parameter i)).
Qed.

(** ** The likelihood report *)

Lemma sample_params_configured : configured_keys (init []) sample_params.
Proof.
  intros k v Hin Hname. unfold sample_params in Hin.
  repeat (apply elem_of_cons in Hin as [[= -> ->]|Hin];
          [first [done | by split; [eexists | eexists]]|]).
  by apply elem_of_nil in Hin.
Defined.

(** C2: for a parameter set whose keys other than the timestamp are
    configured sensors carrying numbers, [calculate_failure_likelihood]
    returns a report whose score lies in [0, 100]. *)
Theorem C2_score_in_range (history : list (gmap string pyval))
    (params : list (string * pyval)) :
  configured_keys (init history) params →
  ∃ score issues,
    calculate_failure_likelihood (init history) params = Ok (score, issues)
    ∧ (0 <= score)%Q ∧ (score <= 100)%Q.
Proof.
  intros Hkeys.
  destruct (report_configured history params Hkeys)
    as (likelihood & raw & -> & Hsum & _ & Hpos).
  eexists _, _. split; [reflexivity|].
  assert (0 <= likelihood)%Q as Hnonneg.
  { rewrite Hsum. apply total_contribution_nonneg.
    eapply Forall_impl; [exact Hpos|]. intros i. apply Qlt_le_weak. }
  unfold Py.min. destruct (Qlt_bool 100 likelihood) eqn:Hlt.
  - split; [done | apply Qle_refl].
  - split; [done | by apply Qlt_bool_false].
Qed.

Lemma C2_score_in_range_witness :
  ∃ score issues,
    calculate_failure_likelihood (init []) sample_params = Ok (score, issues)
    ∧ (0 <= score)%Q ∧ (score <= 100)%Q.
Proof. exact (C2_score_in_range [] sample_params sample_params_configured). Defined.

(** C5: for a parameter set whose keys are configured sensors, the issues
    of the report are in descending order of risk contribution, and the
    issues of any one contribution stand in the order in which their
    readings occur in the parameter set. *)
Theorem C5_issues_sorted_stable (history : list (gmap string pyval))
    (params : list (string * pyval)) :
  configured_keys (init history) params →
  ∃ score issues,
    calculate_failure_likelihood (init history) params = Ok (score, issues)
    ∧ StronglySorted (desc risk_contribution) issues
    ∧ ∀ c : Q,
        sublist (reading <$> filter (λ i, risk_contribution i == c)%Q issues) params.
Proof.
  intros Hkeys.
  destruct (report_configured history params Hkeys)
    as (likelihood & raw & -> & _ & Hsub & _).
  eexists _, _. split; [reflexivity|]. split; [apply sorted_desc_sorted|].
  intros c. rewrite sorted_desc_stable.
  etrans; [|exact Hsub]. apply fmap_sublist, sublist_filter.
Qed.

Lemma C5_issues_sorted_stable_witness :
  ∃ score issues,
    calculate_failure_likelihood (init []) sample_params = Ok (score, issues)
    ∧ StronglySorted (desc risk_contribution) issues
    ∧ ∀ c : Q,
        sublist (reading <$> filter (λ i, risk_contribution i == c)%Q issues)
          sample_params.
Proof. exact (C5_issues_sorted_stable [] sample_params sample_params_configured). Defined.

(** C9: for a parameter set whose keys are configured sensors, the score of
    the report is min(S, 100) for S the sum of the risk contributions of the
    returned issues, and the score is 0 exactly when there is no issue. *)
Theorem C9_score_is_clamped_sum (history : list (gmap string pyval))
    (params : list (string * pyval)) :
  configured_keys (init history) params →
  ∃ score issues,
    calculate_failure_likelihood (init history) params = Ok (score, issues)
    ∧ (score == Py.min (total_contribution issues) 100)%Q
    ∧ ((score == 0)%Q ↔ issues = []).
Proof.
  intros Hkeys.
  destruct (report_configured history params Hkeys)
    as (likelihood & raw & -> & Hsum & _ & Hpos).
  eexists _, _. split; [reflexivity|]. split.
  - apply min_100_proper. rewrite Hsum. symmetry.
    apply total_contribution_perm, sorted_desc_perm.
  - split.
    + intros Hzero. destruct raw as [|i raw]; [done|]. exfalso.
      apply total_contribution_pos in Hpos. rewrite <- Hsum in Hpos.
      unfold Py.min in Hzero. destruct (Qlt_bool 100 likelihood); [done|].
      rewrite Hzero in Hpos. by apply Qlt_irrefl in Hpos.
    + intros Hnil. apply sorted_desc_nil in Hnil. subst raw.
      assert (Qlt_bool 100 likelihood = false) as Hle.
      { apply Qlt_bool_false. by rewrite Hsum. }
      unfold Py.min. by rewrite Hle.
Qed.

Lemma C9_score_is_clamped_sum_witness :
  ∃ score issues,
    calculate_failure_likelihood (init []) sample_params = Ok (score, issues)
    ∧ (score == Py.min (total_contribution issues) 100)%Q
    ∧ ((score == 0)%Q ↔ issues = []).
Proof. exact (C9_score_is_clamped_sum [] sample_params sample_params_configured). Defined.

(** ** [generate_recommendations] *)

Lemma prefix_app (a b : string) : String.prefix a (a +:+ b) = true.
Proof.
  induction a as [|c a IH]; simpl; [by destruct b|].
  destruct (ascii_dec c c); [exact IH | done].
Qed.

Lemma concat_cons (sep x : string) (l : list string) :
  l ≠ [] → String.concat sep (x :: l) = x +:+ sep +:+ String.concat sep l.
Proof. by destruct l. Qed.

(** C8 as worded fails: with no issue, a runtime of 6000 hours and no
    maintenance on record, the text is the all-normal sentence. *)
Lemma C8_counterexample_no_issues : ¬ overdue_always_prepended.
Proof.
  intros H.
  destruct (H sample_builtins (init []) [("runtime", VNum 6000)] []
              (VNum 6000) (6000 - 0)%Q eq_refl eq_refl eq_refl)
    as (text & Htext & Hprefix).
  injection Htext as <-. vm_compute in Hprefix. discriminate.
Qed.

(** C8 (amended): for a non-empty issues list and a parameter set whose
    runtime exceeds the last maintenance runtime by more than 5000, the text
    is the overdue message followed by one line per issue, in order: the
    urgent message for a CRITICAL issue and the scheduled-inspection message
    for a WARNING issue. *)
Theorem C8_overdue_prepended (py : builtins)
    (self : PredictiveMaintenance) (params : list (string * pyval))
    (issues : list issue) (runtime : pyval) (due : Q) :
  issues ≠ [] →
  items_get params "runtime" = Ok runtime →
  sub (minus py) runtime (_get_last_maintenance_time self) = Ok due →
  (5000 < due)%Q →
  ∃ text lines,
    generate_recommendations py self params issues = Ok text
    ∧ text = String.concat newline (overdue_message py due :: lines)
    ∧ String.prefix (overdue_message py due) text = true
    ∧ Forall2 (λ i line,
         (status i = CRITICAL → line = urgent_message py i)
         ∧ (status i = WARNING → line = inspection_message py i))
        issues lines.
Proof.
  intros Hissues Hruntime Hdue Hover.
  exists (String.concat newline
            (overdue_message py due :: map (issue_message py) issues)),
         (map (issue_message py) issues).
  split; [|split; [done|split]].
  - unfold generate_recommendations. destruct issues as [|i issues]; [done|].
    rewrite Hruntime, bind_Ok, Hdue, bind_Ok.
    apply Qlt_bool_iff in Hover. by rewrite Hover.
  - rewrite concat_cons by (by destruct issues). apply prefix_app.
  - apply Forall2_fmap_r, Forall_Forall2_diag, Forall_forall.
    intros i _. unfold issue_message. split; intros Hs.
    + by rewrite decide_True.
    + rewrite decide_False; [done|]. by rewrite Hs.
Qed.

Lemma C8_overdue_prepended_witness :
  ∃ text lines,
    generate_recommendations sample_builtins (init []) [("runtime", VNum 6000)]
      [Issue "temperature" (VNum 85) CRITICAL 25] = Ok text
    ∧ text = String.concat newline (overdue_message sample_builtins (6000 - 0) :: lines)
    ∧ String.prefix (overdue_message sample_builtins (6000 - 0)) text = true
    ∧ Forall2 (λ i line,
         (status i = CRITICAL → line = urgent_message sample_builtins i)
         ∧ (status i = WARNING → line = inspection_message sample_builtins i))
        [Issue "temperature" (VNum 85) CRITICAL 25] lines.
Proof.
  apply (C8_overdue_prepended sample_builtins (init []) [("runtime", VNum 6000)]
           [Issue "temperature" (VNum 85) CRITICAL 25] (VNum 6000) (6000 - 0)%Q).
  - discriminate.
  - reflexivity.
  - reflexivity.
  - reflexivity.
Defined.

(** ** Further behaviour of [assess_parameter_status] *)

Lemma assess_not_critical (self : PredictiveMaintenance) (name : string)
    (threshold : sensor) (value : pyval) :
  thresholds self !! name = Some threshold →
  critical_test threshold value = Ok false →
  assess_parameter_status self name value =
    (warn ← warning_test threshold value;
     if warn : bool then Ok (WARNING, (1 # 2)%Q) else Ok (NORMAL, 0%Q)).
Proof.
  intros Hlook Hcrit. by rewrite (assess_unfold _ _ _ _ Hlook), Hcrit.
Qed.

Lemma warning_pair_cases (self : PredictiveMaintenance) (name : string)
    (threshold : sensor) (lo hi v : Q) :
  thresholds self !! name = Some threshold →
  critical_test threshold (VNum v) = Ok false →
  warning threshold = PTuple [lo; hi] →
  (assess_parameter_status self name (VNum v) = Ok (WARNING, (1 # 2)%Q)
   ↔ (v < lo)%Q ∨ (hi < v)%Q)
  ∧ (assess_parameter_status self name (VNum v) = Ok (NORMAL, 0%Q)
     ↔ (lo <= v)%Q ∧ (v <= hi)%Q).
Proof.
  intros Hlook Hcrit Hwarn.
  rewrite (assess_not_critical _ _ _ _ Hlook Hcrit).
  unfold warning_test. rewrite Hwarn. cbn [is_tuple]. rewrite outside_pair, bind_Ok.
  rewrite <- !Qlt_bool_iff, <- !Qlt_bool_false, <- orb_true_iff.
  destruct (Qlt_bool v lo), (Qlt_bool hi v); cbn; split; split;
    intros; destruct_and?; done.
Qed.

(** When the critical test does not fire and the warning entry is the pair
    (lo, hi), a number is WARNING exactly outside the pair and NORMAL
    exactly inside it, bounds included. *)
Theorem assess_warning_pair (self : PredictiveMaintenance) (name : string)
    (threshold : sensor) (lo hi v : Q) :
  thresholds self !! name = Some threshold →
  critical_test threshold (VNum v) = Ok false →
  warning threshold = PTuple [lo; hi] →
  (assess_parameter_status self name (VNum v) = Ok (WARNING, (1 # 2)%Q)
   ↔ (v < lo)%Q ∨ (hi < v)%Q)
  ∧ (assess_parameter_status self name (VNum v) = Ok (NORMAL, 0%Q)
     ↔ (lo <= v)%Q ∧ (v <= hi)%Q).
Proof. apply warning_pair_cases. Qed.

Lemma assess_warning_pair_witness :
  assess_parameter_status (init []) "temperature" (VNum 70) = Ok (NORMAL, 0%Q).
Proof.
  apply (assess_warning_pair (init []) "temperature"
           (Sensor (PTuple [20; 60]) (PTuple [60; 80]) (PNum 80) 25)%Q
           60%Q 80%Q 70%Q eq_refl eq_refl eq_refl).
  split; discriminate.
Defined.

(** Whatever the table and the reading, a returned assessment is one of
    (CRITICAL, 1.0), (WARNING, 0.5) and (NORMAL, 0.0). *)
Theorem assess_three_results (self : PredictiveMaintenance) (name : string)
    (value : pyval) (r : Status * Q) :
  assess_parameter_status self name value = Ok r →
  r = (CRITICAL, 1%Q) ∨ r = (WARNING, (1 # 2)%Q) ∨ r = (NORMAL, 0%Q).
Proof.
  destruct r as [s rf]. intros H.
  rewrite (assess_risk_factor _ _ _ _ _ H). destruct s; cbn; auto.
Qed.

Lemma assess_three_results_witness :
  (CRITICAL, 1%Q) = (CRITICAL, 1%Q) ∨ (CRITICAL, 1%Q) = (WARNING, (1 # 2)%Q)
  ∨ (CRITICAL, 1%Q) = (NORMAL, 0%Q).
Proof.
  apply (assess_three_results (init []) "humidity" (VNum 71)). reflexivity.
Defined.

(** A warning entry that is a plain number cannot be indexed: when the
    critical test does not fire, the assessment raises [TypeError]. *)
Theorem assess_scalar_warning_raises (self : PredictiveMaintenance)
    (name : string) (threshold : sensor) (w : Q) (value : pyval) :
  thresholds self !! name = Some threshold →
  critical_test threshold value = Ok false →
  warning threshold = PNum w →
  assess_parameter_status self name value = Raise TypeError.
Proof.
  intros Hlook Hcrit Hwarn.
  rewrite (assess_not_critical _ _ _ _ Hlook Hcrit).
  unfold warning_test. by rewrite Hwarn.
Qed.

Lemma assess_scalar_warning_raises_witness :
  assess_parameter_status
    {| thresholds := {[ "flow" := Sensor (PTuple [0; 10]) (PNum 20) (PNum 30) 5 ]}%Q;
       maintenance_history := [] |} "flow" (VNum 25)
  = Raise TypeError.
Proof.
  apply (assess_scalar_warning_raises _ "flow"
           (Sensor (PTuple [0; 10]) (PNum 20) (PNum 30) 5)%Q 20%Q (VNum 25));
    reflexivity.
Defined.

(** ** The configured table, sensor by sensor *)

Lemma scalar_critical_false (threshold : sensor) (c v : Q) :
  critical threshold = PNum c → (v <= c)%Q →
  critical_test threshold (VNum v) = Ok false.
Proof.
  intros Hcrit Hle. unfold critical_test. rewrite Hcrit. cbn.
  f_equal. by apply Qlt_bool_false.
Qed.

Lemma assess_NORMAL_not_critical (self : PredictiveMaintenance) (name : string)
    (threshold : sensor) (value : pyval) :
  thresholds self !! name = Some threshold →
  assess_parameter_status self name value = Ok (NORMAL, 0%Q) →
  critical_test threshold value = Ok false.
Proof.
  intros Hlook. rewrite (assess_unfold _ _ _ _ Hlook).
  by destruct (critical_test threshold value) as [[|]|e].
Qed.

(** In the configured table a scalar critical bound sits at the upper end
    of the warning pair. *)
Lemma configured_scalar_band (name : string) (threshold : sensor) (c lo hi : Q) :
  configured_thresholds !! name = Some threshold →
  critical threshold = PNum c →
  warning threshold = PTuple [lo; hi] →
  (hi <= c)%Q.
Proof.
  intros H. apply elem_of_list_to_map_2 in H.
  repeat (apply elem_of_cons in H as [[= -> ->]|H];
          [cbn; intros Hc Hw; try discriminate Hc;
           injection Hc as <-; injection Hw as <- <-; by apply Qle_bool_iff|]).
  by apply elem_of_nil in H.
Qed.

(** In the configured table every sensor but pressure has its warning pair
    start where its normal pair ends, below a scalar critical bound. *)
Lemma configured_band_above_normal (name : string) (threshold : sensor)
    (nlo nhi : Q) :
  configured_thresholds !! name = Some threshold →
  name ≠ "pressure" →
  normal threshold = PTuple [nlo; nhi] →
  ∃ c whi,
    critical threshold = PNum c ∧ warning threshold = PTuple [nhi; whi]
    ∧ (nhi <= c)%Q.
Proof.
  intros H. apply elem_of_list_to_map_2 in H.
  repeat (apply elem_of_cons in H as [[= -> ->]|H];
          [intros Hname Hn; try (exfalso; by apply Hname);
           cbn in Hn; injection Hn as <- <-;
           eexists _, _; (split; [reflexivity|]); (split; [reflexivity|]);
           by apply Qle_bool_iff|]).
  by apply elem_of_nil in H.
Qed.

(** For a configured sensor with a scalar critical bound, a number is
    assessed NORMAL exactly when it lies in the pair stored as the warning
    entry, bounds included. *)
Theorem configured_normal_is_warning_band (history : list (gmap string pyval))
    (name : string) (threshold : sensor) (c lo hi v : Q) :
  configured_thresholds !! name = Some threshold →
  critical threshold = PNum c →
  warning threshold = PTuple [lo; hi] →
  assess_parameter_status (init history) name (VNum v) = Ok (NORMAL, 0%Q)
  ↔ (lo <= v)%Q ∧ (v <= hi)%Q.
Proof.
  intros Hlook Hcrit Hwarn.
  pose proof (configured_scalar_band _ _ _ _ _ Hlook Hcrit Hwarn) as Hband.
  split.
  - intros Hnormal.
    pose proof (assess_NORMAL_not_critical (init history) _ _ _ Hlook Hnormal) as Hno.
    by apply (warning_pair_cases (init history) _ _ _ _ _ Hlook Hno Hwarn).
  - intros [Hlo Hhi].
    assert (Hno : critical_test threshold (VNum v) = Ok false).
    { apply (scalar_critical_false _ c); [done|]. by eapply Qle_trans. }
    by apply (warning_pair_cases (init history) _ _ _ _ _ Hlook Hno Hwarn).
Qed.

Lemma configured_normal_is_warning_band_witness :
  assess_parameter_status (init []) "humidity" (VNum 65) = Ok (NORMAL, 0%Q).
Proof.
  apply (configured_normal_is_warning_band [] "humidity"
           (Sensor (PTuple [30; 60]) (PTuple [60; 70]) (PNum 70) 10)%Q
           70%Q 60%Q 70%Q 65%Q eq_refl eq_refl eq_refl).
  split; discriminate.
Defined.

(** For every configured sensor but pressure, a number strictly inside the
    pair stored as the normal entry is assessed WARNING with risk factor
    0.5. *)
Theorem configured_inside_normal_warns (history : list (gmap string pyval))
    (name : string) (threshold : sensor) (nlo nhi v : Q) :
  configured_thresholds !! name = Some threshold →
  name ≠ "pressure" →
  normal threshold = PTuple [nlo; nhi] →
  (nlo < v)%Q → (v < nhi)%Q →
  assess_parameter_status (init history) name (VNum v) = Ok (WARNING, (1 # 2)%Q).
Proof.
  intros Hlook Hname Hnormal _ Hhi.
  destruct (configured_band_above_normal _ _ _ _ Hlook Hname Hnormal)
    as (c & whi & Hcrit & Hwarn & Hband).
  assert (Hno : critical_test threshold (VNum v) = Ok false).
  { apply (scalar_critical_false _ c); [done|].
    apply Qlt_le_weak. by eapply Qlt_le_trans. }
  apply (warning_pair_cases (init history) _ _ _ _ _ Hlook Hno Hwarn). by left.
Qed.

Lemma configured_inside_normal_warns_witness :
  assess_parameter_status (init []) "speed" (VNum 1000) = Ok (WARNING, (1 # 2)%Q).
Proof.
  apply (configured_inside_normal_warns [] "speed"
           (Sensor (PTuple [500; 2000]) (PTuple [2000; 2500]) (PNum 2500) 10)%Q
           500%Q 2000%Q 1000%Q); done.
Defined.

(** Pressure is the sensor whose warning pair encloses its normal pair: a
    number strictly between 2.0 and 8.0 is assessed NORMAL with risk factor
    0.0. *)
Theorem pressure_inside_normal (history : list (gmap string pyval)) (v : Q) :
  (2 < v)%Q → (v < 8)%Q →
  assess_parameter_status (init history) "pressure" (VNum v) = Ok (NORMAL, 0%Q).
Proof.
  intros Hlo Hhi.
  assert (Hno : critical_test
                  (Sensor (PTuple [2; 8]) (PTuple [3 # 2; 17 # 2]) (PTuple [1; 9]) 15)%Q
                  (VNum v) = Ok false).
  { unfold critical_test. cbn [critical is_tuple]. rewrite outside_pair. f_equal.
    apply orb_false_iff. split; apply Qlt_bool_false; apply Qlt_le_weak.
    - by apply (Qlt_trans _ 2).
    - by apply (Qlt_trans _ 8). }
  apply (warning_pair_cases (init history) "pressure" _ (3 # 2)%Q (17 # 2)%Q v
           eq_refl Hno eq_refl).
  split; apply Qlt_le_weak.
  - by apply (Qlt_trans _ 2).
  - by apply (Qlt_trans _ 8).
Qed.

Lemma pressure_inside_normal_witness :
  assess_parameter_status (init []) "pressure" (VNum 5) = Ok (NORMAL, 0%Q).
Proof. apply (pressure_inside_normal [] 5%Q); reflexivity. Defined.

(** ** Further behaviour of [calculate_failure_likelihood] *)

Lemma likelihood_loop_filter (self : PredictiveMaintenance)
    (items : list (string * pyval)) (likelihood : Q) (issues : list issue) :
  likelihood_loop self (filter (λ item, item.1 ≠ "timestamp") items) likelihood issues
  = likelihood_loop self items likelihood issues.
Proof.
  revert likelihood issues.
  induction items as [|[name v] rest IH]; intros likelihood issues; [done|].
  rewrite filter_cons. cbn [fst likelihood_loop].
  case_decide as Hname; [|apply IH].
  cbn [likelihood_loop]. rewrite decide_True by done.
  destruct (assess_parameter_status self name v) as [[s rf]|e]; [|done].
  cbn. destruct (dict_get (thresholds self) name) as [threshold|e]; [|done].
  cbn. apply IH.
Qed.

(** Items under the key "timestamp" play no part: dropping them changes
    neither the report nor the exception, and a parameter set without any
    other item gets the score 0 and no issue. *)
Theorem timestamp_ignored (self : PredictiveMaintenance)
    (params : list (string * pyval)) :
  calculate_failure_likelihood self (filter (λ item, item.1 ≠ "timestamp") params)
  = calculate_failure_likelihood self params
  ∧ (filter (λ item, item.1 ≠ "timestamp") params = [] →
     calculate_failure_likelihood self params = Ok (0%Q, [])).
Proof.
  assert (H : calculate_failure_likelihood self
                (filter (λ item, item.1 ≠ "timestamp") params)
              = calculate_failure_likelihood self params).
  { unfold calculate_failure_likelihood. by rewrite likelihood_loop_filter. }
  split; [exact H|]. intros Hnil. by rewrite <- H, Hnil.
Qed.

Lemma likelihood_loop_flag (self : PredictiveMaintenance)
    (items : list (string * pyval)) (likelihood likelihood' : Q)
    (issues issues' : list issue) :
  likelihood_loop self items likelihood issues = Ok (likelihood', issues') →
  issues' = (issues ++ omap (flag self) items)%list.
Proof.
  revert likelihood issues.
  induction items as [|[name v] rest IH]; intros likelihood issues Hloop.
  - injection Hloop as _ <-. by rewrite app_nil_r.
  - cbn [likelihood_loop] in Hloop. cbn [omap list_omap]. unfold flag at 1. cbn [fst snd].
    case_decide as Hname; [|by apply IH in Hloop].
    apply bind_inv_Ok in Hloop as ([s rf] & Hassess & Hloop).
    apply bind_inv_Ok in Hloop as (threshold & Hget & Hloop).
    cbn zeta in Hloop. rewrite Hassess.
    unfold dict_get in Hget.
    destruct (thresholds self !! name) as [t|]; [|done]. injection Hget as ->.
    apply IH in Hloop as ->.
    case_decide; [by rewrite <- app_assoc | done].
Qed.

Lemma flag_Some (self : PredictiveMaintenance) (item : string * pyval) (i : issue) :
  flag self item = Some i
  ↔ item = reading i ∧ parameter i ≠ "timestamp" ∧ status i ≠ NORMAL
    ∧ ∃ rf threshold,
        assess_parameter_status self (parameter i) (value i) = Ok (status i, rf)
        ∧ thresholds self !! parameter i = Some threshold
        ∧ risk_contribution i = (rf * weight threshold)%Q.
Proof.
  unfold flag, reading. destruct item as [name v]. cbn [fst snd]. split.
  - case_decide as Hname; [|done].
    destruct (assess_parameter_status self name v) as [[s rf]|e] eqn:Hassess; [|done].
    destruct (thresholds self !! name) as [threshold|] eqn:Hlook; [|done].
    case_decide as Hstatus; [|done].
    intros [= <-]. cbn. repeat split; try done. by exists rf, threshold.
  - intros ([= -> ->] & Hname & Hstatus & rf & threshold & -> & -> & Hrc).
    rewrite !decide_True by done. destruct i; cbn in *. by rewrite Hrc.
Qed.

(** With the configured table, the issues of a returned report are sound
    and complete for the parameter set: an issue is in the list exactly when
    its name and value are an item of the set that is not under "timestamp",
    its status is the assessment of that item and is not NORMAL, and its
    contribution is the risk factor of that assessment times the weight of
    the sensor; and the readings of the issues, counted with repetition, are
    among the items of the set. *)
Theorem issues_sound_and_complete (history : list (gmap string pyval))
    (params : list (string * pyval)) (score : Q) (issues : list issue) :
  calculate_failure_likelihood (init history) params = Ok (score, issues) →
  (∀ i, i ∈ issues
        ↔ reading i ∈ params ∧ parameter i ≠ "timestamp" ∧ status i ≠ NORMAL
          ∧ ∃ rf threshold,
              assess_parameter_status (init history) (parameter i) (value i)
              = Ok (status i, rf)
              ∧ configured_thresholds !! parameter i = Some threshold
              ∧ risk_contribution i = (rf * weight threshold)%Q)
  ∧ reading <$> issues ⊆+ params.
Proof.
  unfold calculate_failure_likelihood. intros H.
  apply bind_inv_Ok in H as ([l raw] & Hloop & H). injection H as _ <-.
  split.
  - intros i. rewrite sorted_desc_perm.
    pose proof (likelihood_loop_flag _ _ _ _ _ _ Hloop) as ->. cbn [app].
    rewrite list_elem_of_omap. split.
    + intros (item & Hin & Hflag). apply flag_Some in Hflag as (-> & Hrest).
      by split.
    + intros (Hin & Hrest). exists (reading i). split; [done|].
      by apply flag_Some.
  - apply likelihood_loop_inv in Hloop as (new & -> & _ & Hsub & _). cbn [app].
    rewrite sorted_desc_perm. by apply sublist_submseteq.
Qed.

Lemma issues_sound_and_complete_witness :
  reading <$> [Issue "temperature" (VNum 85) CRITICAL (1 * 25);
               Issue "load" (VNum (1 # 2)) WARNING ((1 # 2) * 10)]
  ⊆+ [("load", VNum (1 # 2)); ("pressure", VNum 5); ("temperature", VNum 85)].
Proof.
  apply (issues_sound_and_complete []
           [("load", VNum (1 # 2)); ("pressure", VNum 5); ("temperature", VNum 85)]
           (0 + (1 # 2) * 10 + 0 * 15 + 1 * 25)%Q).
  reflexivity.
Defined.

Lemma timestamp_ignored_witness :
  calculate_failure_likelihood (init []) [("timestamp", VStr "2024-01-01T00:00:00")]
  = Ok (0%Q, []).
Proof.
  apply (timestamp_ignored (init []) [("timestamp", VStr "2024-01-01T00:00:00")]).
  reflexivity.
Defined.

Lemma likelihood_loop_cons (self : PredictiveMaintenance) (item : string * pyval)
    (rest : list (string * pyval)) (likelihood : Q) (issues : list issue) :
  likelihood_loop self (item :: rest) likelihood issues
  = ('(likelihood', issues') ← likelihood_loop self [item] likelihood issues;
     likelihood_loop self rest likelihood' issues').
Proof. apply (likelihood_loop_app self [item] rest). Qed.

(** A string under the name of a configured sensor raises [TypeError] at
    the first comparison. *)
Lemma configured_string_reading (history : list (gmap string pyval))
    (name : string) (threshold : sensor) (s : string) :
  configured_thresholds !! name = Some threshold →
  assess_parameter_status (init history) name (VStr s) = Raise TypeError.
Proof.
  intros Hlook. rewrite (assess_unfold (init history) _ _ _ Hlook).
  apply elem_of_list_to_map_2 in Hlook.
  repeat (apply elem_of_cons in Hlook as [[= -> ->]|Hlook]; [reflexivity|]).
  by apply elem_of_nil in Hlook.
Qed.

(** A string reading under a configured sensor name makes
    [calculate_failure_likelihood] raise [TypeError] when the items before
    it are evaluated without an error; only the key "timestamp" may carry a
    string. *)
Theorem string_reading_raises (history : list (gmap string pyval))
    (pre post : list (string * pyval)) (name s : string) :
  is_Some (configured_thresholds !! name) →
  name ≠ "timestamp" →
  (∃ report, calculate_failure_likelihood (init history) pre = Ok report) →
  calculate_failure_likelihood (init history) (pre ++ (name, VStr s) :: post)%list
  = Raise TypeError.
Proof.
  intros [threshold Hlook] Hname [report Hpre].
  unfold calculate_failure_likelihood in *. rewrite likelihood_loop_app.
  destruct (likelihood_loop (init history) pre 0%Q []) as [[l iss]|e]; [|done].
  cbn -[likelihood_loop]. cbn [likelihood_loop].
  rewrite decide_True by done.
  by rewrite (configured_string_reading _ _ _ _ Hlook).
Qed.

Lemma string_reading_raises_witness :
  calculate_failure_likelihood (init [])
    [("temperature", VNum 85); ("pressure", VStr "5.0"); ("load", VNum (1 # 2))]
  = Raise TypeError.
Proof.
  apply (string_reading_raises [] [("temperature", VNum 85)]
           [("load", VNum (1 # 2))] "pressure" "5.0").
  - eexists. reflexivity.
  - discriminate.
  - eexists. reflexivity.
Defined.

(** ** The order of the readings *)

(** One round of the loop either raises whatever the two locals hold, or
    adds a fixed amount and appends a fixed list. *)
Lemma likelihood_loop_single (self : PredictiveMaintenance) (item : string * pyval) :
  (∃ e, ∀ likelihood issues,
     likelihood_loop self [item] likelihood issues = Raise e)
  ∨ (∃ c new, ∀ likelihood issues,
       ∃ likelihood',
         likelihood_loop self [item] likelihood issues
         = Ok (likelihood', (issues ++ new)%list)
         ∧ (likelihood' == likelihood + c)%Q).
Proof.
  destruct item as [name v]. cbn [likelihood_loop].
  case_decide as Hname.
  - destruct (assess_parameter_status self name v) as [[s rf]|e];
      [|left; by exists e].
    destruct (dict_get (thresholds self) name) as [threshold|e];
      [|left; by exists e].
    right. exists (rf * weight threshold)%Q. cbn.
    destruct (decide (s ≠ NORMAL)).
    + eexists. intros likelihood issues. eexists. split; [reflexivity|]. reflexivity.
    + exists []. intros likelihood issues. eexists.
      rewrite app_nil_r. split; reflexivity.
  - right. exists 0%Q, []. intros likelihood issues. exists likelihood.
    rewrite app_nil_r. split; [done|]. lra.
Qed.

Lemma same_outcome_trans (r1 r2 r3 : result (Q * list issue)) :
  same_outcome r1 r2 → same_outcome r2 r3 → same_outcome r1 r3.
Proof.
  destruct r1 as [[l1 i1]|e1], r2 as [[l2 i2]|e2], r3 as [[l3 i3]|e3]; cbn; try done.
  intros [Hl12 Hi12] [Hl23 Hi23]. split; cbn in *.
  - by rewrite Hl12.
  - by rewrite Hi12.
Qed.

Lemma likelihood_loop_locals (self : PredictiveMaintenance)
    (items : list (string * pyval)) :
  ∀ l1 l2 i1 i2, (l1 == l2)%Q → i1 ≡ₚ i2 →
    same_outcome (likelihood_loop self items l1 i1) (likelihood_loop self items l2 i2).
Proof.
  induction items as [|item rest IH]; intros l1 l2 i1 i2 Hl Hi; [by split|].
  rewrite !(likelihood_loop_cons self item rest).
  destruct (likelihood_loop_single self item) as [[e He]|(c & new & Hok)].
  - by rewrite !He.
  - destruct (Hok l1 i1) as (l1' & -> & Hl1), (Hok l2 i2) as (l2' & -> & Hl2).
    cbn -[likelihood_loop]. apply IH.
    + by rewrite Hl1, Hl2, Hl.
    + by rewrite Hi.
Qed.

Lemma likelihood_loop_perm (self : PredictiveMaintenance)
    (items1 items2 : list (string * pyval)) :
  items1 ≡ₚ items2 →
  ∀ l1 l2 i1 i2, (l1 == l2)%Q → i1 ≡ₚ i2 →
    same_outcome (likelihood_loop self items1 l1 i1)
                 (likelihood_loop self items2 l2 i2).
Proof.
  induction 1 as [|item rest1 rest2 _ IH|x y rest|items1 items2 items3 _ IH1 _ IH2];
    intros l1 l2 i1 i2 Hl Hi.
  - by split.
  - rewrite (likelihood_loop_cons self item rest1), (likelihood_loop_cons self item rest2).
    destruct (likelihood_loop_single self item) as [[e He]|(c & new & Hok)].
    + by rewrite !He.
    + destruct (Hok l1 i1) as (l1' & -> & Hl1), (Hok l2 i2) as (l2' & -> & Hl2).
      cbn -[likelihood_loop]. apply IH.
      * by rewrite Hl1, Hl2, Hl.
      * by rewrite Hi.
  - rewrite (likelihood_loop_cons self y), (likelihood_loop_cons self x (y :: rest)).
    destruct (likelihood_loop_single self x) as [[ex Hx]|(cx & nx & Hx)],
             (likelihood_loop_single self y) as [[ey Hy]|(cy & ny & Hy)].
    + by rewrite Hx, Hy.
    + rewrite Hx. destruct (Hy l1 i1) as (l1' & -> & _).
      cbn -[likelihood_loop]. rewrite (likelihood_loop_cons self x), Hx. done.
    + rewrite Hy. destruct (Hx l2 i2) as (l2' & -> & _).
      cbn -[likelihood_loop]. rewrite (likelihood_loop_cons self y), Hy. done.
    + destruct (Hy l1 i1) as (l1' & -> & Hl1), (Hx l2 i2) as (l2' & -> & Hl2).
      cbn -[likelihood_loop].
      rewrite (likelihood_loop_cons self x), (likelihood_loop_cons self y).
      destruct (Hx l1' (i1 ++ ny)%list) as (l1'' & -> & Hl1'),
               (Hy l2' (i2 ++ nx)%list) as (l2'' & -> & Hl2').
      cbn -[likelihood_loop]. apply likelihood_loop_locals.
      * rewrite Hl1', Hl1, Hl2', Hl2, Hl. lra.
      * rewrite Hi, <- !app_assoc. f_equiv. apply Permutation_app_comm.
  - eapply same_outcome_trans.
    + apply (IH1 l1 l1 i1 i1); done.
    + by apply IH2.
Qed.

(** With the configured table, the report does not depend on the order of
    the readings: a reordered parameter set gets an equal score and the same
    issues, up to the order of issues; and if one order raises, so does
    every other. *)
Theorem report_order_independent (history : list (gmap string pyval))
    (params1 params2 : list (string * pyval)) :
  params1 ≡ₚ params2 →
  match calculate_failure_likelihood (init history) params1,
        calculate_failure_likelihood (init history) params2 with
  | Ok (score1, issues1), Ok (score2, issues2) =>
      (score1 == score2)%Q ∧ issues1 ≡ₚ issues2
  | Raise _, Raise _ => True
  | _, _ => False
  end.
Proof.
  intros Hperm.
  pose proof (likelihood_loop_perm (init history) _ _ Hperm 0%Q 0%Q [] []
                (Qeq_refl _) (Permutation_refl _)) as H.
  unfold calculate_failure_likelihood.
  destruct (likelihood_loop (init history) params1 0%Q []) as [[l1 raw1]|e1],
           (likelihood_loop (init history) params2 0%Q []) as [[l2 raw2]|e2];
    cbn; try done.
  destruct H as [Hl Hraw]. cbn in Hl, Hraw. split.
  - by apply min_100_proper.
  - by rewrite !sorted_desc_perm.
Qed.

Lemma report_order_independent_witness :
  match calculate_failure_likelihood (init [])
          [("temperature", VNum 85); ("load", VNum (1 # 2))],
        calculate_failure_likelihood (init [])
          [("load", VNum (1 # 2)); ("temperature", VNum 85)] with
  | Ok (score1, issues1), Ok (score2, issues2) =>
      (score1 == score2)%Q ∧ issues1 ≡ₚ issues2
  | Raise _, Raise _ => True
  | _, _ => False
  end.
Proof.
  apply (report_order_independent []
           [("temperature", VNum 85); ("load", VNum (1 # 2))]
           [("load", VNum (1 # 2)); ("temperature", VNum 85)]).
  apply Permutation_swap.
Defined.

(** ** The generator and the labels of [_train_new_model] *)

(** The keys of a generated parameter set are distinct, and apart from
    "timestamp" they are exactly the sensors of the configured table. *)
Theorem generated_keys (d : draws) :
  NoDup (generate_parameters d).*1
  ∧ ∀ k, k ∈ (generate_parameters d).*1
         ↔ k = "timestamp" ∨ is_Some (configured_thresholds !! k).
Proof.
  split.
  - by apply (bool_decide_unpack _).
  - intros k. cbn [generate_parameters fmap list_fmap fst]. split.
    + intros Hin.
      repeat (apply elem_of_cons in Hin as [->|Hin];
              [first [by left | by right; eexists]|]).
      by apply elem_of_nil in Hin.
    + intros [->|[threshold Hlook]]; [set_solver|].
      apply elem_of_list_to_map_2 in Hlook.
      repeat (apply elem_of_cons in Hlook as [[= -> ->]|Hlook]; [set_solver|]).
      by apply elem_of_nil in Hlook.
Qed.

Lemma generated_configured (history : list (gmap string pyval)) (d : draws) :
  configured_keys (init history) (generate_parameters d).
Proof.
  intros k v Hin Hname. unfold generate_parameters in Hin.
  repeat (apply elem_of_cons in Hin as [[= -> ->]|Hin];
          [first [done | by split; [eexists | eexists]]|]).
  by apply elem_of_nil in Hin.
Qed.

Lemma items_set_generated (d : draws) (v : pyval) :
  items_set (generate_parameters d) "failure" v
  = (generate_parameters d ++ [("failure", v)])%list.
Proof. reflexivity. Qed.

Lemma training_data_loop_rows (history : list (gmap string pyval))
    (samples : list draws) (training_data : list (list (string * pyval))) :
  ∃ rows,
    training_data_loop (init history) samples training_data
    = Ok (training_data ++ rows)%list
    ∧ Forall2 (λ d row,
         ∃ score issues,
           calculate_failure_likelihood (init history) (generate_parameters d)
           = Ok (score, issues)
           ∧ row = (generate_parameters d
                    ++ [("failure", VNum (failure_status score))])%list)
        samples rows.
Proof.
  revert training_data.
  induction samples as [|d rest IH]; intros training_data.
  - exists []. by rewrite app_nil_r.
  - destruct (report_configured history _ (generated_configured history d))
      as (l & raw & Hcalc & _).
    cbn [training_data_loop]. rewrite Hcalc, bind_Ok. cbv beta iota zeta.
    rewrite items_set_generated.
    destruct (IH (training_data
                  ++ [generate_parameters d
                      ++ [("failure", VNum (failure_status (Py.min l 100)))]])%list)
      as (rows & Hrows & Hall).
    eexists (_ :: rows). split.
    + rewrite Hrows, <- app_assoc. reflexivity.
    + constructor; [|exact Hall]. by eexists _, _.
Qed.

(** The labelling loop of [_train_new_model] never raises on generated
    samples: it returns one row per sample, in order, each row being the
    generated parameter set with the key "failure" added last, holding 1
    when the score of that set exceeds 50 and 0 otherwise. *)
Theorem training_rows (history : list (gmap string pyval)) (samples : list draws) :
  ∃ rows,
    training_data_loop (init history) samples [] = Ok rows
    ∧ Forall2 (λ d row,
         ∃ score issues,
           calculate_failure_likelihood (init history) (generate_parameters d)
           = Ok (score, issues)
           ∧ row = (generate_parameters d
                    ++ [("failure", VNum (if Qlt_bool 50 score then 1 else 0))])%list)
        samples rows.
Proof. apply (training_data_loop_rows history samples []). Qed.

Lemma configured_weight_bound (name : string) (threshold : sensor) :
  configured_thresholds !! name = Some threshold →
  (0 < weight threshold)%Q ∧ (weight threshold <= 25)%Q
  ∧ (name ≠ "temperature" → (weight threshold <= 20)%Q).
Proof.
  intros H. apply elem_of_list_to_map_2 in H.
  repeat (apply elem_of_cons in H as [[= -> ->]|H];
          [split; [done|]; split; [by apply Qle_bool_iff|];
           intros Hname; first [by apply Qle_bool_iff | by destruct Hname]|]).
  by apply elem_of_nil in H.
Qed.

Lemma flagged_contribution_bound (history : list (gmap string pyval)) (i : issue) :
  flagged (init history) i →
  (risk_contribution i <= 25)%Q
  ∧ (parameter i ≠ "temperature" → (risk_contribution i <= 20)%Q).
Proof.
  intros (_ & threshold & Hlook & ->).
  destruct (configured_weight_bound _ _ Hlook) as (Hpos & H25 & H20).
  split; [|intros Hname; specialize (H20 Hname)];
    destruct (status i); cbn [risk_factor_of]; lra.
Qed.

(** With the configured table, a parameter set with distinct keys is
    labelled a failure (score above 50) only if at least three of its
    readings are flagged: no two weights add up to more than 45. *)
Theorem failure_needs_three_issues (history : list (gmap string pyval))
    (params : list (string * pyval)) (score : Q) (issues : list issue) :
  NoDup params.*1 →
  calculate_failure_likelihood (init history) params = Ok (score, issues) →
  failure_status score = 1%Q →
  (3 ≤ List.length issues)%nat.
Proof.
  intros Hnodup Hcalc Hlabel.
  unfold calculate_failure_likelihood in Hcalc.
  apply bind_inv_Ok in Hcalc as ([l raw] & Hloop & Hcalc).
  injection Hcalc as <- <-.
  rewrite (Permutation_length (sorted_desc_perm risk_contribution raw)).
  apply likelihood_loop_inv in Hloop as (new & -> & Hsum & Hsub & Hall).
  cbn [app] in *.
  assert (Hover : (50 < l)%Q).
  { unfold failure_status in Hlabel.
    destruct (Qlt_bool 50 (Py.min l 100)) eqn:Hlt; [|done].
    apply Qlt_bool_iff in Hlt. unfold Py.min in Hlt.
    destruct (Qlt_bool 100 l) eqn:Hclamp; [|done].
    apply Qlt_bool_iff in Hclamp. lra. }
  assert (Hkeys : NoDup (parameter <$> new)).
  { apply (sublist_NoDup _ params.*1); [done|].
    replace (parameter <$> new) with ((reading <$> new).*1)
      by (by rewrite <- list_fmap_compose).
    by apply fmap_sublist. }
  destruct new as [|a [|b [|c new]]]; [| | |cbn; lia]; exfalso.
  - cbn in Hsum. lra.
  - apply Forall_cons in Hall as [Ha _].
    apply (flagged_contribution_bound history) in Ha as [Ha _].
    unfold total_contribution in Hsum. cbn [foldr] in Hsum. lra.
  - apply Forall_cons in Hall as [Ha Hall]. apply Forall_cons in Hall as [Hb _].
    apply (flagged_contribution_bound history) in Ha as [Ha Ha'].
    apply (flagged_contribution_bound history) in Hb as [Hb Hb'].
    unfold total_contribution in Hsum. cbn [foldr] in Hsum.
    cbn in Hkeys. apply NoDup_cons in Hkeys as [Hne _].
    destruct (decide (parameter a = "temperature")) as [Heq|Hne'].
    + assert (parameter b ≠ "temperature") as Hb''.
      { intros Hb''. apply Hne. rewrite Heq, Hb''. by left. }
      specialize (Hb' Hb''). lra.
    + specialize (Ha' Hne'). lra.
Qed.

Lemma failure_needs_three_issues_witness :
  (3 ≤ List.length
         [Issue "temperature" (VNum 85) CRITICAL (1 * 25);
          Issue "vibration" (VNum 4) CRITICAL (1 * 20);
          Issue "runtime" (VNum 9000) CRITICAL (1 * 20)])%nat.
Proof.
  apply (failure_needs_three_issues []
           [("temperature", VNum 85); ("vibration", VNum 4); ("runtime", VNum 9000)]
           (0 + 1 * 25 + 1 * 20 + 1 * 20)%Q).
  - by apply (bool_decide_unpack _).
  - reflexivity.
  - reflexivity.
Defined.

(** ** Further behaviour of [generate_recommendations] *)

Lemma items_get_absent {V : Type} (items : list (string * V)) (k : string) :
  k ∉ items.*1 → items_get items k = Raise (KeyError k).
Proof.
  induction items as [|[k' v] rest IH]; intros Hnotin; [done|].
  cbn in *. apply not_elem_of_cons in Hnotin as [Hne Hrest].
  rewrite decide_False by done. by apply IH.
Qed.

(** Only the last record of the maintenance history counts: its runtime is
    returned, or 0 when it has none, whatever the earlier records hold; an
    empty history gives 0. *)
Theorem last_maintenance_is_last_record (table : gmap string sensor)
    (history : list (gmap string pyval)) (record : gmap string pyval) :
  _get_last_maintenance_time
    {| thresholds := table; maintenance_history := history ++ [record] |}
  = default (VNum 0) (record !! "runtime")
  ∧ _get_last_maintenance_time {| thresholds := table; maintenance_history := [] |}
    = VNum 0.
Proof.
  split; [|done]. unfold _get_last_maintenance_time. cbn [maintenance_history].
  by rewrite last_snoc.
Qed.

(** With at least one issue, a parameter set without the key "runtime"
    makes [generate_recommendations] raise [KeyError]. *)
Theorem recommendations_need_runtime (py : builtins)
    (self : PredictiveMaintenance) (params : list (string * pyval))
    (issues : list issue) :
  issues ≠ [] →
  "runtime" ∉ params.*1 →
  generate_recommendations py self params issues
  = Raise (KeyError "runtime").
Proof.
  intros Hissues Habsent. unfold generate_recommendations.
  destruct issues as [|i issues]; [done|].
  by rewrite (items_get_absent _ _ Habsent).
Qed.

Lemma recommendations_need_runtime_witness :
  generate_recommendations sample_builtins (init []) [("temperature", VNum 85)]
    [Issue "temperature" (VNum 85) CRITICAL 25]
  = Raise (KeyError "runtime").
Proof.
  apply (recommendations_need_runtime sample_builtins (init [])
           [("temperature", VNum 85)] [Issue "temperature" (VNum 85) CRITICAL 25]).
  - discriminate.
  - by apply (bool_decide_unpack _).
Defined.

(** With at least one issue and a runtime that exceeds the last maintenance
    runtime by 5000 or less, the text is one line per issue, in order, and
    no overdue message: 5000 itself is not overdue. *)
Theorem recommendations_not_overdue (py : builtins)
    (self : PredictiveMaintenance) (params : list (string * pyval))
    (issues : list issue) (runtime : pyval) (due : Q) :
  issues ≠ [] →
  items_get params "runtime" = Ok runtime →
  sub (minus py) runtime (_get_last_maintenance_time self) = Ok due →
  (due <= 5000)%Q →
  generate_recommendations py self params issues
  = Ok (String.concat newline (map (issue_message py) issues)).
Proof.
  intros Hissues Hruntime Hdue Hle. unfold generate_recommendations.
  destruct issues as [|i issues]; [done|].
  rewrite Hruntime, bind_Ok, Hdue, bind_Ok.
  apply Qlt_bool_false in Hle. by rewrite Hle.
Qed.

Lemma recommendations_not_overdue_witness :
  generate_recommendations sample_builtins (init [])
    [("temperature", VNum 85); ("runtime", VNum 5000)]
    [Issue "temperature" (VNum 85) CRITICAL 25]
  = Ok (String.concat newline
          (map (issue_message sample_builtins) [Issue "temperature" (VNum 85) CRITICAL 25])).
Proof.
  apply (recommendations_not_overdue sample_builtins (init [])
           [("temperature", VNum 85); ("runtime", VNum 5000)]
           [Issue "temperature" (VNum 85) CRITICAL 25] (VNum 5000) (5000 - 0)%Q).
  - discriminate.
  - reflexivity.
  - reflexivity.
  - discriminate.
Defined.

(** The rule-based part of [main] never raises on a generated parameter
    set when the last maintenance runtime on record is a number: the
    likelihood report is returned and the recommendations are produced from
    it. *)
Theorem generated_analysis_returns (py : builtins)
    (history : list (gmap string pyval)) (d : draws) (last_runtime : Q) :
  _get_last_maintenance_time (init history) = VNum last_runtime →
  ∃ score issues text,
    calculate_failure_likelihood (init history) (generate_parameters d)
    = Ok (score, issues)
    ∧ generate_recommendations py (init history) (generate_parameters d) issues
      = Ok text.
Proof.
  intros Hlast.
  destruct (report_configured history _ (generated_configured history d))
    as (l & raw & Hcalc & _).
  exists (Py.min l 100), (sorted_desc risk_contribution raw).
  unfold generate_recommendations.
  destruct (sorted_desc risk_contribution raw) as [|i issues];
    [eexists; split; [exact Hcalc | reflexivity]|].
  rewrite Hlast. eexists. split; [exact Hcalc | reflexivity].
Qed.

Lemma generated_analysis_returns_witness :
  ∃ score issues text,
    calculate_failure_likelihood (init []) (generate_parameters sample_draws)
    = Ok (score, issues)
    ∧ generate_recommendations sample_builtins (init [])
        (generate_parameters sample_draws) issues
      = Ok text.
Proof.
  apply (generated_analysis_returns sample_builtins [] sample_draws 0%Q). reflexivity.
Defined.

(** ** Low readings and added readings *)

Lemma configured_scalar_band_ends (name : string) (threshold : sensor) (c lo hi : Q) :
  configured_thresholds !! name = Some threshold →
  critical threshold = PNum c →
  warning threshold = PTuple [lo; hi] →
  hi = c ∧ (lo <= hi)%Q.
Proof.
  intros H. apply elem_of_list_to_map_2 in H.
  repeat (apply elem_of_cons in H as [[= -> ->]|H];
          [cbn; intros Hc Hw; try discriminate Hc;
           injection Hc as <-; injection Hw as <- <-;
           (split; [reflexivity | by apply Qle_bool_iff])|]).
  by apply elem_of_nil in H.
Qed.

Lemma assess_WARNING_not_critical (self : PredictiveMaintenance) (name : string)
    (threshold : sensor) (value : pyval) :
  thresholds self !! name = Some threshold →
  assess_parameter_status self name value = Ok (WARNING, (1 # 2)%Q) →
  critical_test threshold value = Ok false.
Proof.
  intros Hlook. rewrite (assess_unfold _ _ _ _ Hlook).
  by destruct (critical_test threshold value) as [[|]|e].
Qed.

(** For a configured sensor with a scalar critical bound, a number is
    assessed WARNING exactly when it lies below the lower end of the pair
    stored as the warning entry: low readings warn, readings between the
    pair and the critical bound do not exist. *)
Theorem configured_warning_is_below_band (history : list (gmap string pyval))
    (name : string) (threshold : sensor) (c lo hi v : Q) :
  configured_thresholds !! name = Some threshold →
  critical threshold = PNum c →
  warning threshold = PTuple [lo; hi] →
  assess_parameter_status (init history) name (VNum v) = Ok (WARNING, (1 # 2)%Q)
  ↔ (v < lo)%Q.
Proof.
  intros Hlook Hcrit Hwarn.
  destruct (configured_scalar_band_ends _ _ _ _ _ Hlook Hcrit Hwarn) as [-> Hband].
  split.
  - intros Hwarning.
    pose proof (assess_WARNING_not_critical (init history) _ _ _ Hlook Hwarning) as Hno.
    apply (warning_pair_cases (init history) _ _ _ _ _ Hlook Hno Hwarn)
      in Hwarning as [Hbelow|Habove]; [done|].
    unfold critical_test in Hno. rewrite Hcrit in Hno. cbn in Hno.
    injection Hno as Hno. apply Qlt_bool_false in Hno. lra.
  - intros Hbelow.
    assert (Hno : critical_test threshold (VNum v) = Ok false).
    { apply (scalar_critical_false _ c); [done|]. lra. }
    apply (warning_pair_cases (init history) _ _ _ _ _ Hlook Hno Hwarn). by left.
Qed.

Lemma configured_warning_is_below_band_witness :
  assess_parameter_status (init []) "runtime" (VNum 0) = Ok (WARNING, (1 # 2)%Q).
Proof.
  apply (configured_warning_is_below_band [] "runtime"
           (Sensor (PTuple [0; 5000]) (PTuple [5000; 8000]) (PNum 8000) 20)%Q
           8000%Q 5000%Q 8000%Q 0%Q eq_refl eq_refl eq_refl).
  reflexivity.
Defined.

Lemma configured_keys_app (self : PredictiveMaintenance)
    (pre post : list (string * pyval)) :
  configured_keys self (pre ++ post) →
  configured_keys self pre ∧ configured_keys self post.
Proof.
  intros H. split; intros k v Hin; apply H; apply elem_of_app; auto.
Qed.

(** With the configured table, readings added at the end of a parameter
    set never lower the score and never remove an issue. *)
Theorem score_grows_with_readings (history : list (gmap string pyval))
    (pre post : list (string * pyval)) :
  configured_keys (init history) (pre ++ post) →
  ∃ score1 issues1 score2 issues2,
    calculate_failure_likelihood (init history) pre = Ok (score1, issues1)
    ∧ calculate_failure_likelihood (init history) (pre ++ post)%list
      = Ok (score2, issues2)
    ∧ (score1 <= score2)%Q
    ∧ issues1 ⊆ issues2.
Proof.
  intros Hkeys.
  destruct (configured_keys_app _ _ _ Hkeys) as [Hpre Hpost].
  assert (Htable : ∀ k threshold,
            thresholds (init history) !! k = Some threshold → never_raises threshold).
  { intros k threshold Hlook. by apply (configured_sensor k). }
  destruct (likelihood_loop_total _ pre Htable Hpre 0%Q []) as (l1 & raw1 & Hloop1).
  destruct (likelihood_loop_total _ post Htable Hpost l1 raw1) as (l2 & raw2 & Hloop2).
  exists (Py.min l1 100), (sorted_desc risk_contribution raw1),
         (Py.min l2 100), (sorted_desc risk_contribution raw2).
  unfold calculate_failure_likelihood.
  rewrite likelihood_loop_app, Hloop1. cbn -[likelihood_loop]. rewrite Hloop2.
  split; [done|]. split; [done|].
  apply likelihood_loop_inv in Hloop2 as (new & -> & Hsum & _ & Hall).
  assert (Hgrow : (l1 <= l2)%Q).
  { assert (0 <= total_contribution new)%Q; [|lra].
    apply total_contribution_nonneg.
    eapply Forall_impl; [exact Hall|].
    intros i (_ & threshold & Hlook & ->).
    destruct (configured_sensor _ _ Hlook) as [_ Hpos].
    destruct (status i); cbn [risk_factor_of]; lra. }
  split.
  - unfold Py.min.
    destruct (Qlt_bool 100 l1) eqn:H1, (Qlt_bool 100 l2) eqn:H2;
      try apply Qlt_bool_iff in H1; try apply Qlt_bool_iff in H2;
      try apply Qlt_bool_false in H1; try apply Qlt_bool_false in H2; lra.
  - intros i. rewrite !sorted_desc_perm, elem_of_app. auto.
Qed.

Lemma score_grows_with_readings_witness :
  ∃ score1 issues1 score2 issues2,
    calculate_failure_likelihood (init []) [("temperature", VNum 85)]
    = Ok (score1, issues1)
    ∧ calculate_failure_likelihood (init [])
        ([("temperature", VNum 85)] ++ [("load", VNum (1 # 2))])%list
      = Ok (score2, issues2)
    ∧ (score1 <= score2)%Q
    ∧ issues1 ⊆ issues2.
Proof.
  apply (score_grows_with_readings [] [("temperature", VNum 85)]
           [("load", VNum (1 # 2))]).
  intros k v Hin Hname.
  repeat (apply elem_of_cons in Hin as [[= -> ->]|Hin];
          [by split; [eexists | eexists]|]).
  by apply elem_of_nil in Hin.
Defined.
